(** * CD4-csaw helper scripts: [tool_versions.py] and [list-python-modules.py]

    A shallow embedding of the two Python scripts and the properties that
    their design note states about them.

    - [Python] holds the fragment of the language and of its built-in types
      that the scripts use: exceptions, values, [+], truthiness, [str.strip],
      [str.split], [str.join].
    - [PyLib] is the interface of what the scripts do not fix: codecs
      ([bytes.decode]), the [re] engine, and [+] on instances of classes
      that are not built in.
    - [tool_versions] embeds [src/tool_versions.py].
    - [list_python_modules] embeds [src/list-python-modules.py].
    - [Concrete] gives one executable instance of [PyLib] (a backtracking
      matcher for the pattern syntax that [tool_versions.py] uses, the
      utf-8, ascii and latin-1 codecs on text in the Latin-1 range, and the
      class [collections.UserString]) together with sample environments on
      which the scripts can be run. *)

From Stdlib Require Import ZArith Ascii String List Bool Lia.
From Stdlib.Strings Require Import Byte.
From stdpp Require Import base option list strings pretty gmap sorting.

Set Warnings "-register-all".
Local Open Scope string_scope.
Local Open Scope list_scope.

(* ===================================================================== *)
(** * The Python fragment *)
(* ===================================================================== *)

Module Python.

(** ** Exceptions

    Every class below derives from [Exception].  Asynchronous
    [BaseException]s (a [KeyboardInterrupt] delivered while a child process
    runs) are raised by no operation of the model, and by no method of an
    object that a caller passes. *)

Inductive exception_class :=
| OSError
| FileNotFoundError
| CalledProcessError
| TypeError
| ValueError
| UnicodeDecodeError
| UnicodeEncodeError
| LookupError
| IndexError
| NameError
| ImportError
| SyntaxError
| re_error
| RRuntimeError.

#[global] Instance exception_class_eq_dec : EqDecision exception_class.
Proof. solve_decision. Defined.

Record exception := mkException {
  exc_class : exception_class;
  exc_msg : string
}.

#[global] Instance exception_eq_dec : EqDecision exception.
Proof. solve_decision. Defined.

(** [isinstance(ex, cls)] for the classes above.  The only subclass
    relations among them: [FileNotFoundError] is an [OSError],
    [UnicodeDecodeError] and [UnicodeEncodeError] are [ValueError]s,
    [IndexError] is a [LookupError]. *)
Definition subclass (c d : exception_class) : bool :=
  match c, d with
  | FileNotFoundError, OSError => true
  | UnicodeDecodeError, ValueError => true
  | UnicodeEncodeError, ValueError => true
  | IndexError, LookupError => true
  | _, _ => bool_decide (c = d)
  end.

Definition isinstance (ex : exception) (cls : exception_class) : bool :=
  subclass (exc_class ex) cls.

(** The outcome of evaluating an expression or running a statement. *)
Inductive outcome (A : Type) :=
| Return (a : A)
| Raise (ex : exception).
Arguments Return {A} a.
Arguments Raise {A} ex.

#[global] Instance outcome_ret : MRet outcome := fun A a => Return a.
#[global] Instance outcome_bind : MBind outcome := fun A B f m =>
  match m with
  | Return a => f a
  | Raise ex => Raise ex
  end.

(** ** Computations over a state: [S -> outcome A * S]

    A statement that raises keeps the effects it had before raising. *)

Definition M (S A : Type) : Type := S -> outcome A * S.

#[global] Instance M_ret {S} : MRet (M S) := fun A a s => (Return a, s).
#[global] Instance M_bind {S} : MBind (M S) := fun A B f m s =>
  match m s with
  | (Return a, s') => f a s'
  | (Raise ex, s') => (Raise ex, s')
  end.

Definition raise {S A} (ex : exception) : M S A := fun s => (Raise ex, s).

(** An expression that has no effect on the state. *)
Definition lift {S A} (o : outcome A) : M S A := fun s => (o, s).

Definition gets {S A} (f : S -> A) : M S A := fun s => (Return (f s), s).
Definition modify {S} (f : S -> S) : M S unit := fun s => (Return tt, f s).

(** [try: body / except Exception as ex: handler ex]. *)
Definition try_except_Exception {S A}
    (body : M S A) (handler : exception -> M S A) : M S A :=
  fun s =>
    match body s with
    | (Return a, s') => (Return a, s')
    | (Raise ex, s') => handler ex s'
    end.

(** ** Values

    [None] and the instances of [bool], [int], [str], [bytes] and [list],
    and the instances of any other class.  An instance of another class
    ([collections.UserString] for one) is given by the name of its class,
    by its state as a text, and by the answer of its truth test
    ([__bool__], or [__len__] when the class has no [__bool__]); an object
    whose truth test raises is no value of the model.  Its class derives
    from none of the five classes above.  What [+] does with such an
    operand is up to the [__add__] and [__radd__] of the classes involved:
    see [object_add] in [PyLib]. *)

Inductive value :=
| VNone
| VBool (b : bool)
| VInt (z : Z)
| VStr (s : string)
| VBytes (b : list byte)
| VList (l : list value)
| VObject (class_name : string) (data : string) (truthy : bool).

(** [v] is [None] or an instance of one of the five built-in classes. *)
Definition builtin (v : value) : bool :=
  match v with VObject _ _ _ => false | _ => true end.

(** [isinstance(v, str)] *)
Definition isinstance_str (v : value) : bool :=
  match v with VStr _ => true | _ => false end.

(** Truth value testing ([if v:]). *)
Definition truth (v : value) : bool :=
  match v with
  | VNone => false
  | VBool b => b
  | VInt z => negb (Z.eqb z 0)
  | VStr s => negb (String.eqb s "")
  | VBytes b => match b with [] => false | _ => true end
  | VList l => match l with [] => false | _ => true end
  | VObject _ _ truthy => truthy
  end.

(** [v is None] *)
Definition is_None (v : value) : bool :=
  match v with VNone => true | _ => false end.

Definition unsupported_operand : exception :=
  mkException TypeError "unsupported operand type(s) for +".

(** [a + b] when neither operand is an instance of another class. *)
Definition add_builtin (a b : value) : outcome value :=
  match a, b with
  | VStr s, VStr t => Return (VStr (s +:+ t))
  | VBytes s, VBytes t => Return (VBytes (s ++ t))
  | VList s, VList t => Return (VList (s ++ t))
  | VInt x, VInt y => Return (VInt (x + y))
  | VInt x, VBool y => Return (VInt (x + Z.b2z y))
  | VBool x, VInt y => Return (VInt (Z.b2z x + y))
  | VBool x, VBool y => Return (VInt (Z.b2z x + Z.b2z y))
  | _, _ => Raise unsupported_operand
  end.

(** ** [str] methods *)

(** [c.isspace()] for a character in the Latin-1 range. *)
Definition isspace (c : ascii) : bool :=
  let n := nat_of_ascii c in
  (((9 <=? n) && (n <=? 13)) || ((28 <=? n) && (n <=? 32))
   || (n =? 133) || (n =? 160))%nat.

Fixpoint lstrip (s : string) : string :=
  match s with
  | String c s' => if isspace c then lstrip s' else s
  | EmptyString => EmptyString
  end.

(** [rstrip] drops the white space that ends the string: a character is
    kept when it is not white space or when something kept follows. *)
Fixpoint rstrip (s : string) : string :=
  match s with
  | String c s' =>
      match rstrip s' with
      | EmptyString => if isspace c then EmptyString else String c EmptyString
      | r => String c r
      end
  | EmptyString => EmptyString
  end.

(** [s.strip()] *)
Definition strip (s : string) : string := rstrip (lstrip s).

(** [s.split(sep)] for a one-character separator: never empty,
    [''.split(sep) == ['']]. *)
Fixpoint split (sep : ascii) (s : string) : list string :=
  match s with
  | EmptyString => [EmptyString]
  | String c s' =>
      if Ascii.eqb c sep then EmptyString :: split sep s'
      else match split sep s' with
           | w :: ws => String c w :: ws
           | [] => [String c EmptyString]
           end
  end.

(** [sep.join(l)] *)
Fixpoint join (sep : string) (l : list string) : string :=
  match l with
  | [] => ""
  | [x] => x
  | x :: xs => x +:+ sep +:+ join sep xs
  end.

Definition LF : ascii := ascii_of_nat 10.
Definition CR : ascii := ascii_of_nat 13.
Definition newline : string := String LF EmptyString.

End Python.

Export Python.

(* ===================================================================== *)
(** * Library calls *)
(* ===================================================================== *)

(** The codecs and the regular-expression engine of the interpreter, and
    the classes that are not built in.
    [Match_group m name] is [m.group(name)]: [Raise] ([IndexError]) when
    the pattern has no such group, [Return None] when the group took no
    part in the match, [Return (Some s)] for the text it captured.
    [object_add a b] is [a + b] when [a] or [b] is an instance of a class
    that is not built in, as the interpreter finds it from the [__add__]
    of the class of [a] and the [__radd__] of the class of [b]: the value
    that the method returns, the exception that it raises, [TypeError]
    when neither method gives a value.  The methods compute: they start no
    process and bind no name of the module. *)
Class PyLib := {
  Match : Type;
  getdefaultencoding : string;
  bytes_decode : list byte -> value -> outcome string;
  re_search : value -> string -> outcome (option Match);
  Match_group : Match -> string -> outcome (option string);
  object_add : value -> value -> outcome value
}.

(** [a + b] *)
Definition add `{L : PyLib} (a b : value) : outcome value :=
  if builtin a && builtin b then add_builtin a b else object_add a b.

(** [m.group(name)] as a Python value. *)
Definition group_value (g : option string) : value :=
  match g with
  | Some s => VStr s
  | None => VNone
  end.

(* ===================================================================== *)
(** * [src/tool_versions.py] *)
(* ===================================================================== *)

Module tool_versions.

(** A child process that ran to completion, as [Popen.communicate]
    reports it. *)
Record process := mkProcess {
  proc_stdout : list byte;
  proc_stderr : list byte;
  proc_returncode : Z
}.

(** An element of an R character vector. *)
Inductive r_string :=
| NA_character
| RString (s : string).

(** What the machine holds; no statement of the script changes it.
    - [which]: [shutil.which];
    - [expanduser]: [os.path.expanduser];
    - [spawn cmd shell]: the child that [subprocess.Popen(cmd, shell=shell,
      stdin=None, stdout=PIPE, stderr=PIPE)] starts, or the exception of a
      failed launch;
    - [import_from module name]: whether [from module import name]
      succeeds;
    - [r_eval expr]: the character vector [r(expr)];
    - [installed_packages]: the named character vector
      [r('installed.packages()[,"Version"]')], names first. *)
Record environ := mkEnviron {
  which : string -> option string;
  expanduser : string -> string;
  spawn : value -> bool -> outcome process;
  import_from : string -> string -> outcome unit;
  r_eval : string -> outcome (list string);
  installed_packages : outcome (list (string * r_string))
}.

(** The interpreter's state while the module runs: the machine, the
    [Popen] calls made so far ([cmd], [shell]) in order, the names that
    import statements bound at module level, and the module's two
    variables. *)
Record state := mkState {
  env : environ;
  launched : list (value * bool);
  bound : gset string;
  ascp_path : string;
  SOFTWARE_VERSIONS : gmap string value
}.

Definition initial (e : environ) : state :=
  mkState e [] ∅ "" ∅.

(** [subprocess.Popen(cmd, shell=shell, stdin=None, stdout=PIPE,
    stderr=PIPE)] *)
Definition Popen (cmd : value) (shell : bool) : M state process :=
  fun s =>
    (spawn (env s) cmd shell,
     mkState (env s) (launched s ++ [(cmd, shell)]) (bound s)
             (ascp_path s) (SOFTWARE_VERSIONS s)).

(** [p.communicate()] *)
Definition communicate (p : process) : M state (list byte * list byte) :=
  mret (proc_stdout p, proc_stderr p).

Definition no_match : exception :=
  mkException ValueError "Regular expression did not match command output".

Section with_library.
Context `{L : PyLib}.

(** Lines 7-65.  The keyword-only arguments are passed by position:
    [prefix], [suffix], [use_stderr], [encoding], [raise_on_error]. *)
Definition get_command_version_string
    (cmd regexp prefix suffix use_stderr encoding raise_on_error : value)
    : M state value :=
  try_except_Exception
    (let use_shell := isinstance_str cmd in
     p ← Popen cmd use_shell;
     '(stdout, stderr) ← communicate p;
     let output :=
       if is_None use_stderr then stdout ++ stderr
       else if truth use_stderr then stderr
       else stdout in
     output ← lift (bytes_decode output encoding);
     m ← lift (re_search regexp output);
     match m with
     | None => raise no_match
     | Some m =>
         version ← lift (Match_group m "version");
         r ← lift (add prefix (group_value version));
         lift (add r suffix)
     end)
    (fun ex => if truth raise_on_error then raise ex else mret VNone).

(** The defaults of the keyword-only arguments. *)
Definition default_prefix : value := VStr "".
Definition default_suffix : value := VStr "".
Definition default_use_stderr : value := VNone.
Definition default_encoding : value := VStr getdefaultencoding.
Definition default_raise_on_error : value := VBool false.

(** [SOFTWARE_VERSIONS[key] = v] *)
Definition setitem (key : string) (v : value) : M state unit :=
  modify (fun s =>
    mkState (env s) (launched s) (bound s) (ascp_path s)
            (<[key := v]> (SOFTWARE_VERSIONS s))).

(** [SOFTWARE_VERSIONS[key] = get_command_version_string(cmd, regexp,
    prefix=prefix)], the shape of lines 72-85. *)
Definition record_version (key : string) (cmd : value)
    (regexp prefix : string) : M state unit :=
  v ← get_command_version_string cmd (VStr regexp) (VStr prefix)
        default_suffix default_use_stderr default_encoding
        default_raise_on_error;
  setitem key v.

(** [from module import name] at module level. *)
Definition import_name (module name : string) : M state unit :=
  fun s =>
    match import_from (env s) module name with
    | Return _ =>
        (Return tt,
         mkState (env s) (launched s) ({[name]} ∪ bound s)
                 (ascp_path s) (SOFTWARE_VERSIONS s))
    | Raise ex => (Raise ex, s)
    end.

(** [r(expr)] *)
Definition r (expr : string) : M state (list string) :=
  fun s => (r_eval (env s) expr, s).

Definition RRuntimeError_undefined : exception :=
  mkException NameError "name 'RRuntimeError' is not defined".

(** [try: body / except RRuntimeError: handler].  The name in the
    except clause is looked up when the body has raised. *)
Definition try_except_RRuntimeError
    (body handler : M state unit) : M state unit :=
  fun s =>
    match body s with
    | (Return a, s') => (Return a, s')
    | (Raise ex, s') =>
        if bool_decide ("RRuntimeError" ∈ bound s') then
          if isinstance ex RRuntimeError then handler s'
          else (Raise ex, s')
        else (Raise RRuntimeError_undefined, s')
    end.

(** [shutil.which("ascp") or os.path.expanduser(...)], line 67. *)
Definition find_ascp (e : environ) : string :=
  match which e "ascp" with
  | Some p =>
      if truth (VStr p) then p
      else expanduser e "~/.aspera/connect/bin/ascp"
  | None => expanduser e "~/.aspera/connect/bin/ascp"
  end.

(** Lines 67-100: what importing the module runs. *)
Definition module_body : M state unit :=
  modify (fun s =>
    mkState (env s) (launched s) (bound s) (find_ascp (env s))
            (SOFTWARE_VERSIONS s));;
  modify (fun s =>
    mkState (env s) (launched s) (bound s) (ascp_path s) ∅);;
  ascp ← gets ascp_path;
  record_version "ASCP" (VList [VStr ascp; VStr "--version"])
    "ascp version\s+(?P<version>\S+)" "ascp ";;
  record_version "BEDTOOLS" (VStr "bedtools --version")
    "bedtools\s+(?P<version>\S+)" "bedtools ";;
  record_version "BOWTIE2" (VStr "bowtie2 --version")
    "version\s+(?P<version>\S+)" "bowtie2 ";;
  record_version "CUFFLINKS" (VStr "cufflinks --help")
    "cufflinks v(?P<version>\S+)" "cufflinks ";;
  record_version "EPIC" (VStr "epic --version")
    "epic\s+(?P<version>\S+)" "epic ";;
  record_version "FASTQ_TOOLS" (VStr "fastq-sort --version")
    "(?P<version>\d+(\.\d+)*)" "fastq-tools ";;
  record_version "HISAT2" (VStr "hisat2 --version")
    "version\s+(?P<version>\S+)" "hisat2 ";;
  record_version "IDR" (VStr "idr --version")
    "(?P<version>\d+(\.\d+)*)" "IDR ";;
  record_version "KALLISTO" (VStr "kallisto")
    "^kallisto\s+(?P<version>\S+)" "kallisto ";;
  record_version "MACS" (VStr "macs2 --version")
    "macs2\s+(?P<version>\S+)" "macs2 ";;
  record_version "SALMON" (VStr "salmon --version")
    "version\s+:\s+(?P<version>\S+)" "salmon ";;
  record_version "SAMTOOLS" (VStr "samtools")
    "Version:\s+(?P<version>\S+)" "samtools ";;
  record_version "SRATOOLKIT" (VStr "fastq-dump --version")
    ":\s+(?P<version>\S+)" "sratoolkit ";;
  record_version "STAR" (VStr "STAR --version")
    "STAR_(?P<version>\S+)" "STAR ";;
  try_except_RRuntimeError
    (import_name "rpy2.robjects" "r";;
     import_name "rpy2.rinterface" "RRuntimeError";;
     v ← r "R.version$version.string";
     setitem "R" (VStr (join "" v)))
    (setitem "R" VNone);;
  try_except_RRuntimeError
    (import_name "rpy2.robjects" "r";;
     import_name "rpy2.rinterface" "RRuntimeError";;
     v ← r "as.character(BiocInstaller::biocVersion())";
     setitem "BIOC" (VStr ("Bioconductor " +:+ join "" v)))
    (setitem "BIOC" VNone).

(** [from module import name] inside a function: the name is local. *)
Definition import_local (module name : string) : M state unit :=
  fun s => (import_from (env s) module name, s).

(** [vec.rx(name)[0]]: the element called [name], NA when no element
    has that name. *)
Fixpoint rx (vec : list (string * r_string)) (name : string) : r_string :=
  match vec with
  | [] => NA_character
  | (n, v) :: rest => if String.eqb n name then v else rx rest name
  end.

(** [r['is.na'](x)[0]] *)
Definition is_na (x : r_string) : bool :=
  match x with NA_character => true | RString _ => false end.

(** The text of an element, as [join] reads it. *)
Definition r_text (x : r_string) : string :=
  match x with NA_character => "NA" | RString s => s end.

(** [r('installed.packages()[,"Version"]')] *)
Definition r_installed_packages : M state (list (string * r_string)) :=
  fun s => (installed_packages (env s), s).

(** The [ValueError] of line 108; its message also quotes [pkgname]. *)
Definition no_package_version : exception :=
  mkException ValueError "Could not determine package version".

(** Lines 102-111. *)
Definition R_package_version (pkgname : string) : M state value :=
  try_except_Exception
    (import_local "rpy2.robjects" "r";;
     import_local "rpy2.rinterface" "RRuntimeError";;
     vec ← r_installed_packages;
     let pkgversion := rx vec pkgname in
     if is_na pkgversion then raise no_package_version
     else mret (VStr (join " " [pkgname; r_text pkgversion])))
    (fun _ => mret VNone).

End with_library.

End tool_versions.

(* ===================================================================== *)
(** * [src/list-python-modules.py] *)
(* ===================================================================== *)

Module list_python_modules.

(** An element of [dis.get_instructions(...)].  The script reads [argval]
    of [IMPORT_NAME] instructions only, where it is the module's name. *)
Record instruction := mkInstruction {
  opname : string;
  argval : string
}.

(** The characters that the codec of a text stream can encode: the ASCII
    characters, which the codec of every locale holds, and the characters
    above them that [codec] accepts. *)
Definition holds (codec : ascii -> bool) (c : ascii) : bool :=
  (nat_of_ascii c <? 128)%nat || codec c.

Fixpoint encodes (codec : ascii -> bool) (text : string) : bool :=
  match text with
  | EmptyString => true
  | String c text' => holds codec c && encodes codec text'
  end.

(** What the machine holds.
    - [check_output cmd]: the bytes that the shell command prints, or
      [CalledProcessError] when it exits with a non-zero status;
    - [read_text path]: [open(path, mode='rt').read()];
    - [popen_stdout argv]: what the child started by [Popen(argv,
      stdout=PIPE)] prints, or the exception of a failed launch;
    - [get_instructions text]: [dis.get_instructions(text)], consumed;
    - [file_codec]: the characters above ASCII that the encoding of the
      locale holds; [open] and [TemporaryFile] use that encoding in text
      mode;
    - [stdout_codec]: the same for the encoding of [sys.stdout];
    - [read_text_encodes]: a text that [open(path).read()] returned was
      decoded with the encoding of the locale, which encodes it again. *)
Record environ := mkEnviron {
  check_output : string -> outcome (list byte);
  read_text : string -> outcome string;
  popen_stdout : list string -> outcome (list byte);
  get_instructions : string -> outcome (list instruction);
  file_codec : ascii -> bool;
  stdout_codec : ascii -> bool;
  read_text_encodes :
    forall path text,
      read_text path = Return text -> encodes file_codec text = true
}.

(** The machine, the argument lists of the children started so far, what
    the temporary file holds, and the text that has been printed on
    standard output.  The temporary file can be created and has room, and
    standard output is open: a full disk and a closed pipe are not
    modelled. *)
Record state := mkState {
  env : environ;
  launched : list (list string);
  tempf : string;
  printed : string
}.

Definition initial (e : environ) : state := mkState e [] "" "".

(** [for x in l: body x] *)
Fixpoint for_in {S A} (l : list A) (body : A -> M S unit) : M S unit :=
  match l with
  | [] => mret tt
  | x :: l' => body x;; for_in l' body
  end.

Definition cannot_encode : exception :=
  mkException UnicodeEncodeError "codec can't encode character".

(** [tempf.write(text)].  The file is opened in text mode on a POSIX
    system: a line end is written as it is.  The text is encoded when it
    is written: [UnicodeEncodeError] when the encoding of the locale does
    not hold one of its characters, and nothing is written then. *)
Definition write (text : string) : M state unit :=
  fun s =>
    if encodes (file_codec (env s)) text
    then (Return tt,
          mkState (env s) (launched s) (tempf s +:+ text) (printed s))
    else (Raise cannot_encode, s).

(** Reading a text file opened with the default [newline=None]: the line
    endings CR LF and CR come back as LF. *)
Fixpoint universal_newlines (s : string) : string :=
  match s with
  | EmptyString => EmptyString
  | String c s' =>
      if Ascii.eqb c CR then
        match s' with
        | String d s'' =>
            if Ascii.eqb d LF then String LF (universal_newlines s'')
            else String LF (universal_newlines s')
        | EmptyString => String LF EmptyString
        end
      else String c (universal_newlines s')
  end.

(** [tempf.flush(); tempf.seek(0); tempf.read()] *)
Definition read_back : M state string :=
  gets (fun s => universal_newlines (tempf s)).

(** [check_output(cmd, shell=True)] *)
Definition shell_output (cmd : string) : M state (list byte) :=
  fun s => (check_output (env s) cmd, s).

(** [open(path, mode='rt').read()] *)
Definition open_read (path : string) : M state string :=
  fun s => (read_text (env s) path, s).

(** [dis.get_instructions(text)], iterated to its end. *)
Definition disassemble (text : string) : M state (list instruction) :=
  fun s => (get_instructions (env s) text, s).

(** [Popen(argv, stdout=PIPE).stdout.read()] *)
Definition Popen_read (argv : list string) : M state (list byte) :=
  fun s =>
    (popen_stdout (env s) argv,
     mkState (env s) (launched s ++ [argv]) (tempf s) (printed s)).

(** [print(text)]: [sys.stdout.write(text)], then the line end.
    [UnicodeEncodeError] when the encoding of [sys.stdout] does not hold
    a character of the text, and nothing is printed then. *)
Definition print (text : string) : M state unit :=
  fun s =>
    if encodes (stdout_codec (env s)) text
    then (Return tt,
          mkState (env s) (launched s) (tempf s)
                  (printed s +:+ text +:+ newline))
    else (Raise cannot_encode, s).

(** The order of [sorted] on strings, and [sorted] itself. *)
Definition str_le (s t : string) : Prop := String.leb s t = true.

#[global] Instance str_le_dec s t : Decision (str_le s t).
Proof. unfold str_le. apply _. Defined.

Definition sorted (l : list string) : list string := merge_sort str_le l.

Definition find_python_files : string :=
  " find . -maxdepth 2 -name '*.py' ".
Definition find_snakefiles : string :=
  " find . -maxdepth 2 -name '*Snakefile' ".

(** Lines 26-28, from the instructions of the combined text to the
    argument of [print]. *)
Definition imports (instructions : list instruction) : gset string :=
  list_to_set
    (argval <$>
      filter (fun x => opname x = "IMPORT_NAME") instructions).

Definition report (instructions : list instruction) : string :=
  join newline (sorted (elements (imports instructions))).

Section with_library.
Context `{L : PyLib}.

(** [check_output(cmd, shell=True).decode(sys.getdefaultencoding())
    .strip().split('\n')], lines 10-13. *)
Definition list_files (cmd : string) : M state (list string) :=
  out ← shell_output cmd;
  text ← lift (bytes_decode out (VStr getdefaultencoding));
  mret (split LF (strip text)).

(** Lines 15-25: the combined text. *)
Definition gather (python_files snakefiles : list string)
    : M state string :=
  modify (fun s => mkState (env s) (launched s) "" (printed s));;
  for_in python_files (fun pf =>
    text ← open_read pf;
    write text;;
    write newline);;
  for_in snakefiles (fun sf =>
    out ← Popen_read
            ["snakemake"; "--print-compilation"; "--snakefile"; sf];
    text ← lift (bytes_decode out (VStr getdefaultencoding));
    write text;;
    write newline);;
  read_back.

(** The whole script. *)
Definition main : M state unit :=
  python_files ← list_files find_python_files;
  snakefiles ← list_files find_snakefiles;
  fulltext ← gather python_files snakefiles;
  instructions ← disassemble fulltext;
  print (report instructions).

End with_library.

End list_python_modules.

(* ===================================================================== *)
(** * An executable library *)
(* ===================================================================== *)

(** One instance of [PyLib], for running the scripts on sample machines.

    Text is [string], whose characters are the code points below 256.  The
    codecs are [ascii], [latin-1] and [utf-8]; [utf-8] decodes the one- and
    two-byte sequences of those code points and refuses other input.

    Patterns: literal characters, [.], the classes [\d \D \s \S], escaped
    punctuation, [^], [$], groups [(...)], [(?:...)] and [(?P<name>...)],
    alternation and the greedy quantifiers [* + ?] on an operand that
    cannot match the empty string.  Any other pattern is answered with
    [re.error]. *)
Module Concrete.

Inductive charset :=
| Lit (c : ascii)
| Dot
| Digit
| NotDigit
| Space
| NotSpace.

Inductive regex :=
| Empty
| Chars (cs : charset)
| Bol
| Eol
| Seq (r1 r2 : regex)
| Alt (r1 r2 : regex)
| Star (r : regex)
| Plus (r : regex)
| Opt (r : regex)
| Group (i : nat) (r : regex).

Definition isdigit (c : ascii) : bool :=
  let n := nat_of_ascii c in ((48 <=? n) && (n <=? 57))%nat.

Definition in_charset (cs : charset) (c : ascii) : bool :=
  match cs with
  | Lit d => Ascii.eqb c d
  | Dot => negb (Ascii.eqb c LF)
  | Digit => isdigit c
  | NotDigit => negb (isdigit c)
  | Space => isspace c
  | NotSpace => negb (isspace c)
  end.

Fixpoint nullable (r : regex) : bool :=
  match r with
  | Empty | Bol | Eol | Star _ | Opt _ => true
  | Chars _ => false
  | Seq r1 r2 => nullable r1 && nullable r2
  | Alt r1 r2 => nullable r1 || nullable r2
  | Plus r | Group _ r => nullable r
  end.

(** ** Parsing a pattern *)

Record pstate := mkPstate {
  next_group : nat;
  group_names : list (string * nat)
}.

Definition is_quantifier (c : ascii) : bool :=
  Ascii.eqb c "*" || Ascii.eqb c "+" || Ascii.eqb c "?" || Ascii.eqb c "{".

Definition is_word (c : ascii) : bool :=
  let n := nat_of_ascii c in
  (((48 <=? n) && (n <=? 57)) || ((65 <=? n) && (n <=? 90))
   || ((97 <=? n) && (n <=? 122)) || (n =? 95))%nat.

(** The name of [(?P<name>...)], up to the closing [>]. *)
Fixpoint group_name (p : list ascii) : option (string * list ascii) :=
  match p with
  | [] => None
  | c :: p' =>
      if Ascii.eqb c ">" then Some (EmptyString, p')
      else if is_word c then
        match group_name p' with
        | Some (n, rest) => Some (String c n, rest)
        | None => None
        end
      else None
  end.

Definition valid_name (n : string) (st : pstate) : bool :=
  match n with
  | EmptyString => false
  | String c _ =>
      negb (isdigit c)
      && negb (existsb (fun e => String.eqb (fst e) n) (group_names st))
  end.

(** An operand followed by its quantifier, if any. *)
Definition quantified (a : regex) (p : list ascii)
    : option (regex * list ascii) :=
  match p with
  | c :: p' =>
      if is_quantifier c then
        if nullable a then None
        else match p' with
             | d :: _ =>
                 if is_quantifier d then None
                 else if Ascii.eqb c "*" then Some (Star a, p')
                 else if Ascii.eqb c "+" then Some (Plus a, p')
                 else if Ascii.eqb c "?" then Some (Opt a, p')
                 else None
             | [] =>
                 if Ascii.eqb c "*" then Some (Star a, p')
                 else if Ascii.eqb c "+" then Some (Plus a, p')
                 else if Ascii.eqb c "?" then Some (Opt a, p')
                 else None
             end
      else Some (a, p)
  | [] => Some (a, p)
  end.

Definition escape (c : ascii) : option regex :=
  if Ascii.eqb c "d" then Some (Chars Digit)
  else if Ascii.eqb c "D" then Some (Chars NotDigit)
  else if Ascii.eqb c "s" then Some (Chars Space)
  else if Ascii.eqb c "S" then Some (Chars NotSpace)
  else if is_word c then None
  else if (128 <=? nat_of_ascii c)%nat then None
  else Some (Chars (Lit c)).

Fixpoint parse_alt (fuel : nat) (p : list ascii) (st : pstate)
    : option (regex * list ascii * pstate) :=
  match fuel with
  | O => None
  | S fuel =>
      match parse_seq fuel p st with
      | Some (r1, c :: p', st') =>
          if Ascii.eqb c "|" then
            match parse_alt fuel p' st' with
            | Some (r2, p'', st'') => Some (Alt r1 r2, p'', st'')
            | None => None
            end
          else Some (r1, c :: p', st')
      | other => other
      end
  end
with parse_seq (fuel : nat) (p : list ascii) (st : pstate)
    : option (regex * list ascii * pstate) :=
  match fuel with
  | O => None
  | S fuel =>
      match p with
      | [] => Some (Empty, p, st)
      | c :: _ =>
          if Ascii.eqb c ")" || Ascii.eqb c "|" then Some (Empty, p, st)
          else
            match parse_atom fuel p st with
            | Some (a, p', st') =>
                match quantified a p' with
                | Some (a', p'') =>
                    match parse_seq fuel p'' st' with
                    | Some (Empty, p''', st'') => Some (a', p''', st'')
                    | Some (r, p''', st'') => Some (Seq a' r, p''', st'')
                    | None => None
                    end
                | None => None
                end
            | None => None
            end
      end
  end
with parse_atom (fuel : nat) (p : list ascii) (st : pstate)
    : option (regex * list ascii * pstate) :=
  match fuel with
  | O => None
  | S fuel =>
      match p with
      | [] => None
      | c :: p' =>
          if Ascii.eqb c "(" then
            let body (capture : option pstate) (q : list ascii) :=
              let st1 := match capture with Some st1 => st1 | None => st end in
              match parse_alt fuel q st1 with
              | Some (r, d :: q', st2) =>
                  if Ascii.eqb d ")" then
                    match capture with
                    | Some _ => Some (Group (next_group st) r, q', st2)
                    | None => Some (r, q', st2)
                    end
                  else None
              | _ => None
              end in
            match p' with
            | "?"%char :: ":"%char :: q => body None q
            | "?"%char :: "P"%char :: "<"%char :: q =>
                match group_name q with
                | Some (n, q') =>
                    if valid_name n st then
                      body (Some (mkPstate (S (next_group st))
                               ((n, next_group st) :: group_names st))) q'
                    else None
                | None => None
                end
            | "?"%char :: _ => None
            | q =>
                body (Some (mkPstate (S (next_group st)) (group_names st))) q
            end
          else if Ascii.eqb c "\" then
            match p' with
            | e :: q =>
                match escape e with
                | Some r => Some (r, q, st)
                | None => None
                end
            | [] => None
            end
          else if Ascii.eqb c "." then Some (Chars Dot, p', st)
          else if Ascii.eqb c "^" then Some (Bol, p', st)
          else if Ascii.eqb c "$" then Some (Eol, p', st)
          else if is_quantifier c || Ascii.eqb c "[" || Ascii.eqb c ")"
                  || Ascii.eqb c "}" || Ascii.eqb c "]"
          then None
          else Some (Chars (Lit c), p', st)
      end
  end.

(** [re.compile(pattern)]: the expression and its named groups. *)
Definition compile (pattern : string)
    : option (regex * list (string * nat)) :=
  let p := list_ascii_of_string pattern in
  match parse_alt (4 * length p + 4) p (mkPstate 1 []) with
  | Some (r, [], st) => Some (r, group_names st)
  | _ => None
  end.

(** ** Matching

    A backtracking matcher in continuation-passing style.  A position is
    the number of characters consumed together with the text that
    remains; [captures] lists the spans of the groups closed so far,
    latest first. *)

Definition captures := list (nat * (nat * nat)).
Definition cont := nat -> string -> captures -> option captures.

(** Greedy iteration of [body]; every round consumes a character, so
    [fuel] above the length of the remaining text is never used up. *)
Fixpoint star (body : nat -> string -> captures -> cont -> option captures)
    (fuel : nat) (pos : nat) (rest : string) (c : captures) (k : cont)
    : option captures :=
  match fuel with
  | O => k pos rest c
  | S fuel =>
      match body pos rest c (fun pos' rest' c' =>
              if (pos <? pos')%nat then star body fuel pos' rest' c' k
              else None) with
      | Some r => Some r
      | None => k pos rest c
      end
  end.

Fixpoint rmatch (r : regex) (pos : nat) (rest : string) (c : captures)
    (k : cont) : option captures :=
  match r with
  | Empty => k pos rest c
  | Chars cs =>
      match rest with
      | String a rest' =>
          if in_charset cs a then k (S pos) rest' c else None
      | EmptyString => None
      end
  | Bol => if (pos =? 0)%nat then k pos rest c else None
  | Eol =>
      match rest with
      | EmptyString => k pos rest c
      | String a EmptyString =>
          if Ascii.eqb a LF then k pos rest c else None
      | _ => None
      end
  | Seq r1 r2 =>
      rmatch r1 pos rest c (fun pos' rest' c' => rmatch r2 pos' rest' c' k)
  | Alt r1 r2 =>
      match rmatch r1 pos rest c k with
      | Some x => Some x
      | None => rmatch r2 pos rest c k
      end
  | Star r => star (rmatch r) (S (String.length rest)) pos rest c k
  | Plus r =>
      rmatch r pos rest c (fun pos' rest' c' =>
        star (rmatch r) (S (String.length rest')) pos' rest' c' k)
  | Opt r =>
      match rmatch r pos rest c k with
      | Some x => Some x
      | None => k pos rest c
      end
  | Group i r =>
      rmatch r pos rest c (fun pos' rest' c' =>
        k pos' rest' ((i, (pos, pos')) :: c'))
  end.

(** The leftmost match: start positions are tried from the left. *)
Fixpoint search_from (r : regex) (pos : nat) (rest : string)
    : option captures :=
  match rmatch r pos rest [] (fun pos' _ c => Some ((0, (pos, pos')) :: c))
  with
  | Some c => Some c
  | None =>
      match rest with
      | String _ rest' => search_from r (S pos) rest'
      | EmptyString => None
      end
  end.

Record match_object := mkMatch {
  m_string : string;
  m_spans : captures;
  m_names : list (string * nat)
}.

Fixpoint span_of (i : nat) (c : captures) : option (nat * nat) :=
  match c with
  | [] => None
  | (j, sp) :: c' => if (i =? j)%nat then Some sp else span_of i c'
  end.

Fixpoint index_of (name : string) (names : list (string * nat))
    : option nat :=
  match names with
  | [] => None
  | (n, i) :: names' =>
      if String.eqb n name then Some i else index_of name names'
  end.

Definition bad_pattern : exception :=
  mkException re_error "invalid or unsupported pattern".
Definition not_a_pattern : exception :=
  mkException TypeError "first argument must be string or compiled pattern".
Definition no_such_group : exception :=
  mkException IndexError "no such group".

(** [re.search(pattern, text)] *)
Definition search (pattern : value) (text : string)
    : outcome (option match_object) :=
  match pattern with
  | VStr p =>
      match compile p with
      | Some (r, names) =>
          Return
            (match search_from r 0 text with
             | Some c => Some (mkMatch text c names)
             | None => None
             end)
      | None => Raise bad_pattern
      end
  | _ => Raise not_a_pattern
  end.

(** [m.group(name)] *)
Definition group (m : match_object) (name : string)
    : outcome (option string) :=
  match index_of name (m_names m) with
  | None => Raise no_such_group
  | Some i =>
      Return
        (match span_of i (m_spans m) with
         | Some (from, to) =>
             Some (String.substring from (to - from) (m_string m))
         | None => None
         end)
  end.

(** ** Codecs *)

Definition cannot_decode : exception :=
  mkException UnicodeDecodeError "codec can't decode byte".
Definition unknown_encoding : exception :=
  mkException LookupError "unknown encoding".
Definition encoding_not_str : exception :=
  mkException TypeError "decode() argument 'encoding' must be str".

Definition chr (n : N) : ascii := ascii_of_N n.

Fixpoint decode_ascii (b : list byte) : outcome string :=
  match b with
  | [] => Return EmptyString
  | x :: b' =>
      if (Byte.to_N x <? 128)%N then
        s ← decode_ascii b'; Return (String (chr (Byte.to_N x)) s)
      else Raise cannot_decode
  end.

Definition decode_latin_1 (b : list byte) : outcome string :=
  Return (string_of_list_byte b).

Fixpoint decode_utf_8 (b : list byte) : outcome string :=
  match b with
  | [] => Return EmptyString
  | x :: b' =>
      let n := Byte.to_N x in
      if (n <? 128)%N then
        s ← decode_utf_8 b'; Return (String (chr n) s)
      else if ((n =? 194) || (n =? 195))%N then
        match b' with
        | y :: b'' =>
            let m := Byte.to_N y in
            if ((128 <=? m) && (m <? 192))%N then
              s ← decode_utf_8 b'';
              Return (String (chr ((n - 192) * 64 + (m - 128))) s)
            else Raise cannot_decode
        | [] => Raise cannot_decode
        end
      else Raise cannot_decode
  end.

(** [b.decode(encoding)] *)
Definition decode (b : list byte) (encoding : value) : outcome string :=
  match encoding with
  | VStr e =>
      if String.eqb e "utf-8" || String.eqb e "utf8" then
        decode_utf_8 b
      else if String.eqb e "ascii" then decode_ascii b
      else if String.eqb e "latin-1" || String.eqb e "latin1" then
        decode_latin_1 b
      else Raise unknown_encoding
  | _ => Raise encoding_not_str
  end.

(** *** One class that is not built in: [collections.UserString]

    [UserString(data)] wraps a string.  Its [__add__] and [__radd__]
    answer every operand: a string or another [UserString] is joined as
    it is, any other operand through [str], and the sum is a
    [UserString] again.  Its truth test is [len(data) != 0]. *)

Definition UserString (data : string) : value :=
  VObject "UserString" data (negb (String.eqb data "")).

Definition backslash : ascii := ascii_of_nat 92.
Definition single_quote : ascii := ascii_of_nat 39.
Definition double_quote : ascii := ascii_of_nat 34.

Definition hex_digit (n : nat) : ascii :=
  ascii_of_nat (if (n <? 10)%nat then 48 + n else 87 + n).

(** The escape of a character by its code, a backslash, [x] and two
    hexadecimal digits. *)
Definition hex_escape (c : ascii) : string :=
  let n := nat_of_ascii c in
  String backslash
    (String "x"
       (String (hex_digit (n / 16))
          (String (hex_digit (n mod 16)) EmptyString))).

Fixpoint has_char (c : ascii) (s : string) : bool :=
  match s with
  | EmptyString => false
  | String d s' => Ascii.eqb c d || has_char c s'
  end.

(** The quote that [repr] puts around a text: the single quote, unless
    the text holds one and no double quote. *)
Definition repr_quote (s : string) : ascii :=
  if has_char single_quote s && negb (has_char double_quote s)
  then double_quote else single_quote.

(** A character of the Latin-1 range that [str.isprintable] refuses: the
    control characters, the no-break space and the soft hyphen. *)
Definition unprintable (c : ascii) : bool :=
  let n := nat_of_ascii c in
  ((n <? 32) || ((127 <=? n) && (n <=? 160)) || (n =? 173))%nat.

Definition repr_char (quote : ascii) (plain : ascii -> bool) (c : ascii)
    : string :=
  if Ascii.eqb c quote || Ascii.eqb c backslash then
    String backslash (String c EmptyString)
  else if Ascii.eqb c (ascii_of_nat 9) then
    String backslash (String "t" EmptyString)
  else if Ascii.eqb c LF then String backslash (String "n" EmptyString)
  else if Ascii.eqb c CR then String backslash (String "r" EmptyString)
  else if plain c then String c EmptyString
  else hex_escape c.

Fixpoint repr_chars (quote : ascii) (plain : ascii -> bool) (s : string)
    : string :=
  match s with
  | EmptyString => EmptyString
  | String c s' => repr_char quote plain c +:+ repr_chars quote plain s'
  end.

(** [repr(s)] for a string *)
Definition repr_str (s : string) : string :=
  let q := repr_quote s in
  String q (repr_chars q (fun c => negb (unprintable c)) s)
  +:+ String q EmptyString.

(** [repr(b)] for bytes *)
Definition repr_bytes (b : list byte) : string :=
  let s := string_of_list_byte b in
  let q := repr_quote s in
  String "b"
    (String q
       (repr_chars q
          (fun c => let n := nat_of_ascii c in
                    ((32 <=? n) && (n <? 127))%nat) s)
     +:+ String q EmptyString).

(** [repr(v)]; nothing for an instance of a class that the model does
    not know. *)
Fixpoint repr (v : value) : option string :=
  match v with
  | VNone => Some "None"
  | VBool b => Some (if b then "True" else "False")
  | VInt z => Some (pretty z)
  | VStr s => Some (repr_str s)
  | VBytes b => Some (repr_bytes b)
  | VList l =>
      match
        (fix items (l : list value) : option (list string) :=
           match l with
           | [] => Some []
           | x :: l' =>
               match repr x, items l' with
               | Some r, Some rs => Some (r :: rs)
               | _, _ => None
               end
           end) l
      with
      | Some rs => Some ("[" +:+ join ", " rs +:+ "]")
      | None => None
      end
  | VObject cls data _ =>
      if String.eqb cls "UserString" then Some (repr_str data) else None
  end.

(** [str(v)] *)
Definition str (v : value) : option string :=
  match v with
  | VStr s => Some s
  | VObject cls data _ =>
      if String.eqb cls "UserString" then Some data else None
  | _ => repr v
  end.

Definition as_UserString (v : value) : option string :=
  match v with
  | VObject cls data _ =>
      if String.eqb cls "UserString" then Some data else None
  | _ => None
  end.

(** [a + b] when an operand is no built-in value.  An instance of a class
    other than [UserString] is taken to have no [__add__] and no
    [__radd__] of its own; its sum with a [UserString], which needs the
    text of the instance, is answered with [TypeError] as well. *)
Definition add_objects (a b : value) : outcome value :=
  match as_UserString a, as_UserString b with
  | Some s, _ =>
      match str b with
      | Some t => Return (UserString (s +:+ t))
      | None => Raise unsupported_operand
      end
  | None, Some t =>
      match str a with
      | Some s => Return (UserString (s +:+ t))
      | None => Raise unsupported_operand
      end
  | None, None => Raise unsupported_operand
  end.

Definition lib : PyLib := {|
  Match := match_object;
  getdefaultencoding := "utf-8";
  bytes_decode := decode;
  re_search := search;
  Match_group := group;
  object_add := add_objects
|}.

End Concrete.

(* ===================================================================== *)
(** * Sample machines *)
(* ===================================================================== *)

Module Samples.
Import tool_versions.

Definition bytes (s : string) : list byte := list_byte_of_string s.

Definition file_not_found : exception :=
  mkException FileNotFoundError "No such file or directory".
Definition no_module : exception :=
  mkException ImportError "No module named 'rpy2'".

(** A machine whose only program is [tool]: run through a shell as
    [tool --version] it prints [out] and [err] and exits with [status].
    R is not installed. *)
Definition tool_machine (out err : string) (status : Z) : environ :=
  mkEnviron
    (fun _ => None)
    (fun path => "/home/user" +:+ String.substring 1 (String.length path) path)
    (fun cmd shell =>
       match cmd, shell with
       | VStr c, true =>
           if String.eqb c "tool --version"
           then Return (mkProcess (bytes out) (bytes err) status)
           else Raise file_not_found
       | _, _ => Raise file_not_found
       end)
    (fun _ _ => Raise no_module)
    (fun _ => Raise no_module)
    (Raise no_module).

(** A machine with R and one installed package. *)
Definition r_machine : environ :=
  mkEnviron
    (fun _ => None)
    (fun path => "/home/user" +:+ String.substring 1 (String.length path) path)
    (fun _ _ => Raise file_not_found)
    (fun _ _ => Return tt)
    (fun _ => Return ["R version 3.4.0 (2017-04-21)"])
    (Return [("stats", RString "3.4.0")]).

(** A machine with [ascp] on the search path, [bedtools], and [samtools],
    which prints its usage on standard error and exits with status 1.  A
    shell that is given another command answers on standard error and exits
    with status 127.  With [rpy2] the imports succeed, R knows its version
    and has no package [BiocInstaller]. *)
Definition pipeline_machine (rpy2 : bool) : environ :=
  mkEnviron
    (fun name => if String.eqb name "ascp" then Some "/usr/bin/ascp" else None)
    (fun path => "/home/user" +:+ String.substring 1 (String.length path) path)
    (fun cmd shell =>
       match cmd, shell with
       | VStr c, true =>
           if String.eqb c "bedtools --version"
           then Return (mkProcess (bytes ("bedtools v2.26.0" +:+ newline))
                          [] 0)
           else if String.eqb c "samtools"
           then Return (mkProcess []
                          (bytes ("Program: samtools" +:+ newline
                                  +:+ "Version: 1.3.1 (using htslib 1.3.1)"
                                  +:+ newline)) 1)
           else Return (mkProcess []
                          (bytes ("/bin/sh: command not found" +:+ newline))
                          127)
       | VList [VStr "/usr/bin/ascp"; VStr "--version"], false =>
           Return (mkProcess (bytes ("ascp version 3.5.4.102989" +:+ newline))
                     [] 0)
       | _, _ => Raise file_not_found
       end)
    (fun _ _ => if rpy2 then Return tt else Raise no_module)
    (fun expr =>
       if String.eqb expr "R.version$version.string"
       then Return ["R version 3.4.0 (2017-04-21)"]
       else Raise (mkException RRuntimeError
                     "there is no package called BiocInstaller"))
    (Return [("stats", RString "3.4.0")]).

(** The call of the design note: [tool --version] prints [tool v2.3.1]
    on standard output, or on standard error, or prints it and fails. *)
Definition tool_version : value := VStr "tool --version".
Definition version_pattern : value := VStr "v(?P<version>(\d+\.)*\d+)".
Definition release_pattern : value := VStr "release (?P<version>\d+)".
Definition utf_8 : value := VStr "utf-8".
Definition banner : string := "tool v2.3.1" +:+ newline.

(** [re.search(pattern, text).group("version")], [None] without a match. *)
Definition version_found (pattern text : string) : outcome (option string) :=
  m ← Concrete.search (VStr pattern) text;
  match m with
  | Some m => Concrete.group m "version"
  | None => Return None
  end.

(** A machine with [rpy2] whose R cannot be started: [r(...)] fails with
    an error of the operating system. *)
Definition stubborn_r_machine : environ :=
  mkEnviron
    (fun _ => None)
    (fun path => "/home/user" +:+ String.substring 1 (String.length path) path)
    (fun _ _ => Raise file_not_found)
    (fun _ _ => Return tt)
    (fun _ => Raise (mkException OSError "cannot start R"))
    (Raise (mkException OSError "cannot start R")).

(** A pattern that matches [tool] without its group [version]. *)
Definition either_pattern : value := VStr "tool|(?P<version>release)".

Definition on_stdout : state := initial (tool_machine banner "" 0).
Definition on_stderr : state := initial (tool_machine "" banner 0).
Definition on_stdout_failing : state := initial (tool_machine banner "" 1).
Definition with_r : state := initial r_machine.

End Samples.

Module ListerSamples.
Import list_python_modules.

Definition line (s : string) : string := s +:+ newline.

Definition instr (op arg : string) : instruction := mkInstruction op arg.

(** The codec of a UTF-8 locale holds every character. *)
Definition utf_8_codec : ascii -> bool := fun _ => true.

Lemma utf_8_codec_encodes text : encodes utf_8_codec text = true.
Proof.
  induction text as [|c text IH]; [reflexivity|].
  cbn [encodes]. rewrite IH. unfold holds, utf_8_codec.
  now rewrite orb_true_r.
Qed.

(** The instructions of [import os / import sys / import os]. *)
Definition os_sys_os : list instruction :=
  [ instr "RESUME" "0";
    instr "LOAD_CONST" "0"; instr "LOAD_CONST" "None";
    instr "IMPORT_NAME" "os"; instr "STORE_NAME" "os";
    instr "LOAD_CONST" "0"; instr "LOAD_CONST" "None";
    instr "IMPORT_NAME" "sys"; instr "STORE_NAME" "sys";
    instr "LOAD_CONST" "0"; instr "LOAD_CONST" "None";
    instr "IMPORT_NAME" "os"; instr "STORE_NAME" "os";
    instr "LOAD_CONST" "None"; instr "RETURN_VALUE" "None" ].

(** The instructions of [import os / import sys]. *)
Definition os_sys : list instruction :=
  firstn 9 os_sys_os ++ skipn 13 os_sys_os.

Definition exit_status_1 : exception :=
  mkException CalledProcessError "returned non-zero exit status 1".
Definition invalid_syntax : exception :=
  mkException SyntaxError "invalid syntax".

(** A directory in which the two [find] commands print [found_py] and
    [found_snake].  The file [./a.py] imports [os] and [sys]; the
    workflow file [./Snakefile] compiles to a text that imports [os];
    [snakemake] prints nothing for another path; no other file can be
    opened. *)
Definition directory (found_py found_snake : string) : environ :=
  mkEnviron
    (fun cmd =>
       if String.eqb cmd find_python_files
       then Return (Samples.bytes found_py)
       else if String.eqb cmd find_snakefiles
       then Return (Samples.bytes found_snake)
       else Raise exit_status_1)
    (fun path =>
       if String.eqb path "./a.py"
       then Return (line "import os" +:+ line "import sys")
       else Raise Samples.file_not_found)
    (fun argv =>
       match argv with
       | [_; _; _; sf] =>
           if String.eqb sf "./Snakefile"
           then Return (Samples.bytes (line "import os"))
           else Return []
       | _ => Return []
       end)
    (fun text =>
       if String.eqb text
            (line "import os" +:+ line "import sys" +:+ newline
             +:+ line "import os" +:+ newline)
       then Return os_sys_os
       else if String.eqb text
            (line "import os" +:+ line "import sys" +:+ newline
             +:+ newline)
       then Return os_sys
       else Raise invalid_syntax)
    utf_8_codec utf_8_codec
    (fun _ text _ => utf_8_codec_encodes text).

(** The instructions of [x = 1 / rules = []]. *)
Definition no_import : list instruction :=
  [ instr "RESUME" "0";
    instr "LOAD_CONST" "1"; instr "STORE_NAME" "x";
    instr "BUILD_LIST" "0"; instr "STORE_NAME" "rules";
    instr "LOAD_CONST" "None"; instr "RETURN_VALUE" "None" ].

(** A directory with [./a.py], which assigns a variable, and
    [./Snakefile], which compiles to another assignment. *)
Definition plain_directory : environ :=
  mkEnviron
    (fun cmd =>
       if String.eqb cmd find_python_files
       then Return (Samples.bytes (line "./a.py"))
       else if String.eqb cmd find_snakefiles
       then Return (Samples.bytes (line "./Snakefile"))
       else Raise exit_status_1)
    (fun path =>
       if String.eqb path "./a.py" then Return (line "x = 1")
       else Raise Samples.file_not_found)
    (fun argv =>
       match argv with
       | [_; _; _; sf] =>
           if String.eqb sf "./Snakefile"
           then Return (Samples.bytes (line "rules = []"))
           else Return []
       | _ => Return []
       end)
    (fun text =>
       if String.eqb text
            (line "x = 1" +:+ newline +:+ line "rules = []" +:+ newline)
       then Return no_import
       else Raise invalid_syntax)
    utf_8_codec utf_8_codec
    (fun _ text _ => utf_8_codec_encodes text).

Definition without_imports : state := initial plain_directory.

(** The instructions of a text that imports [names], one statement
    each. *)
Definition import_statements (names : list string) : list instruction :=
  instr "RESUME" "0"
  :: flat_map (fun name =>
       [ instr "LOAD_CONST" "0"; instr "LOAD_CONST" "None";
         instr "IMPORT_NAME" name; instr "STORE_NAME" name ]) names
  ++ [ instr "LOAD_CONST" "None"; instr "RETURN_VALUE" "None" ].

(** The combined text of the project below. *)
Definition project_text : string :=
  line "import os" +:+ line "import sys" +:+ newline
  +:+ line "import re" +:+ newline
  +:+ line "import os" +:+ newline
  +:+ line "import json" +:+ newline.

(** A project with two Python files and two workflow files, under a
    UTF-8 locale: [./a.py] imports [os] and [sys], [./lib/b.py] imports
    [re]; [./Snakefile] compiles to a text that imports [os] and
    [./sub/Snakefile] to one that imports [json]. *)
Definition project : environ :=
  mkEnviron
    (fun cmd =>
       if String.eqb cmd find_python_files
       then Return (Samples.bytes (line "./a.py" +:+ line "./lib/b.py"))
       else if String.eqb cmd find_snakefiles
       then Return (Samples.bytes
                      (line "./Snakefile" +:+ line "./sub/Snakefile"))
       else Raise exit_status_1)
    (fun path =>
       if String.eqb path "./a.py"
       then Return (line "import os" +:+ line "import sys")
       else if String.eqb path "./lib/b.py"
       then Return (line "import re")
       else Raise Samples.file_not_found)
    (fun argv =>
       match argv with
       | [_; _; _; sf] =>
           if String.eqb sf "./Snakefile"
           then Return (Samples.bytes (line "import os"))
           else if String.eqb sf "./sub/Snakefile"
           then Return (Samples.bytes (line "import json"))
           else Return []
       | _ => Return []
       end)
    (fun text =>
       if String.eqb text project_text
       then Return (import_statements ["os"; "sys"; "re"; "os"; "json"])
       else Raise invalid_syntax)
    utf_8_codec utf_8_codec
    (fun _ text _ => utf_8_codec_encodes text).

Definition two_of_each : state := initial project.

(** The codec of the C locale holds the ASCII characters only. *)
Definition ascii_codec : ascii -> bool := fun _ => false.

Definition e_acute : string := String (ascii_of_nat 233) EmptyString.

Lemma c_locale_reads path text :
  (if String.eqb path "./a.py"
   then Return (line "import os")
   else Raise Samples.file_not_found) = Return text ->
  encodes ascii_codec text = true.
Proof.
  destruct (String.eqb path "./a.py");
    [intros [= <-]; reflexivity | discriminate].
Qed.

(** A directory under the C locale: [./a.py] imports [os], and the
    workflow file [./Snakefile] compiles to a text whose first line is a
    comment with an e acute, which [snakemake] prints in UTF-8. *)
Definition c_locale_directory : environ :=
  mkEnviron
    (fun cmd =>
       if String.eqb cmd find_python_files
       then Return (Samples.bytes (line "./a.py"))
       else if String.eqb cmd find_snakefiles
       then Return (Samples.bytes (line "./Snakefile"))
       else Raise exit_status_1)
    (fun path =>
       if String.eqb path "./a.py"
       then Return (line "import os")
       else Raise Samples.file_not_found)
    (fun _ =>
       Return (Samples.bytes "# caf" ++ ["195"%byte; "169"%byte]
               ++ Samples.bytes (newline +:+ line "import sys")))
    (fun _ => Raise invalid_syntax)
    ascii_codec ascii_codec
    c_locale_reads.

Definition under_c_locale : state := initial c_locale_directory.


Definition both_kinds : state :=
  initial (directory (line "./a.py") (line "./Snakefile")).
Definition no_python_file : state :=
  initial (directory "" (line "./Snakefile")).
Definition no_snakefile : state :=
  initial (directory (line "./a.py") "").

End ListerSamples.

(* ===================================================================== *)
(** * Vocabulary of the statements *)
(* ===================================================================== *)

Section vocabulary.
Import tool_versions.
Context `{L : PyLib}.

(** The bytes that are decoded and searched, by [use_stderr]. *)
Definition searched_bytes (use_stderr : value) (p : process) : list byte :=
  match use_stderr with
  | VNone => proc_stdout p ++ proc_stderr p
  | _ => if truth use_stderr then proc_stderr p else proc_stdout p
  end.

(** Decoding, searching and formatting: what can go wrong on the way from
    the selected bytes to the version string. *)
Definition formatted_version (regexp prefix suffix encoding : value)
    (output : list byte) : outcome value :=
  text ← bytes_decode output encoding;
  m ← re_search regexp text;
  match m with
  | None => Raise no_match
  | Some m =>
      version ← Match_group m "version";
      r ← add prefix (group_value version);
      add r suffix
  end.

(** The same under the error policy of [raise_on_error]. *)
Definition version_in (regexp prefix suffix encoding raise_on_error : value)
    (output : list byte) : outcome value :=
  match formatted_version regexp prefix suffix encoding output with
  | Return v => Return v
  | Raise ex => if truth raise_on_error then Raise ex else Return VNone
  end.

(** The state after a call: one more launch is on record. *)
Definition after_launch (cmd : value) (s : state) : state :=
  mkState (env s) (launched s ++ [(cmd, isinstance_str cmd)]) (bound s)
          (ascp_path s) (SOFTWARE_VERSIONS s).

(** The failures of a probe, in the order of the steps: the launch, the
    decoding of the selected bytes, the search (the pattern is refused,
    or it finds nothing), the lookup of the group [version], and the
    concatenation with [prefix] and [suffix]. *)
Inductive probing_error (s : state)
    (cmd regexp prefix suffix use_stderr encoding : value)
    : exception -> Prop :=
| launch_failure ex :
    spawn (env s) cmd (isinstance_str cmd) = Raise ex ->
    probing_error s cmd regexp prefix suffix use_stderr encoding ex
| decode_failure p ex :
    spawn (env s) cmd (isinstance_str cmd) = Return p ->
    bytes_decode (searched_bytes use_stderr p) encoding = Raise ex ->
    probing_error s cmd regexp prefix suffix use_stderr encoding ex
| search_failure p text ex :
    spawn (env s) cmd (isinstance_str cmd) = Return p ->
    bytes_decode (searched_bytes use_stderr p) encoding = Return text ->
    re_search regexp text = Raise ex ->
    probing_error s cmd regexp prefix suffix use_stderr encoding ex
| match_failure p text :
    spawn (env s) cmd (isinstance_str cmd) = Return p ->
    bytes_decode (searched_bytes use_stderr p) encoding = Return text ->
    re_search regexp text = Return None ->
    probing_error s cmd regexp prefix suffix use_stderr encoding no_match
| group_failure p text m ex :
    spawn (env s) cmd (isinstance_str cmd) = Return p ->
    bytes_decode (searched_bytes use_stderr p) encoding = Return text ->
    re_search regexp text = Return (Some m) ->
    Match_group m "version" = Raise ex ->
    probing_error s cmd regexp prefix suffix use_stderr encoding ex
| concatenation_failure p text m g ex :
    spawn (env s) cmd (isinstance_str cmd) = Return p ->
    bytes_decode (searched_bytes use_stderr p) encoding = Return text ->
    re_search regexp text = Return (Some m) ->
    Match_group m "version" = Return g ->
    (r ← add prefix (group_value g); add r suffix) = Raise ex ->
    probing_error s cmd regexp prefix suffix use_stderr encoding ex.

(** Both imports of the R blocks succeed. *)
Definition rpy2_imports (e : environ) : Prop :=
  import_from e "rpy2.robjects" "r" = Return tt
  /\ import_from e "rpy2.rinterface" "RRuntimeError" = Return tt.

(** Two states from which the statements after line 69 run alike: the
    same machine and variables, and [RRuntimeError] is bound in both or
    in neither unless the imports bind it anyway. *)
Definition alike (s s' : state) : Prop :=
  env s = env s'
  /\ ascp_path s = ascp_path s'
  /\ SOFTWARE_VERSIONS s = SOFTWARE_VERSIONS s'
  /\ (("RRuntimeError" ∈ bound s <-> "RRuntimeError" ∈ bound s')
      \/ rpy2_imports (env s)).

Definition respectful {A} (c : M state A) : Prop :=
  forall s s', alike s s' ->
    fst (c s) = fst (c s') /\ alike (snd (c s)) (snd (c s')).

(** What a statement may do to the machine and to the name
    [RRuntimeError]: the machine stays, the name stays bound, and it
    becomes bound only when both imports succeed. *)
Definition follows (s s1 : state) : Prop :=
  env s1 = env s
  /\ ("RRuntimeError" ∈ bound s -> "RRuntimeError" ∈ bound s1)
  /\ ("RRuntimeError" ∈ bound s1 ->
      "RRuntimeError" ∈ bound s \/ rpy2_imports (env s)).

Definition tame {A} (c : M state A) : Prop :=
  forall s, follows s (snd (c s)).

(** The shape of the two R blocks (lines 88-93 and 95-100). *)
Definition r_block (key expr : string) (f : list string -> value)
    : M state unit :=
  try_except_RRuntimeError
    (import_name "rpy2.robjects" "r";;
     import_name "rpy2.rinterface" "RRuntimeError";;
     v ← r expr;
     setitem key (f v))
    (setitem key VNone).

(** Statements of the module lister that neither print nor change the
    machine. *)
Definition quiet {A} (c : M list_python_modules.state A) : Prop :=
  forall s,
    list_python_modules.env (snd (c s)) = list_python_modules.env s
    /\ list_python_modules.printed (snd (c s))
       = list_python_modules.printed s.

End vocabulary.

Section module_vocabulary.
Import tool_versions.
Context `{L : PyLib}.

(** What a probe with the default keyword arguments stores in the table:
    the formatted version found in standard output followed by standard
    error, [None] when anything fails. *)
Definition probed (e : environ) (cmd : value) (regexp prefix : string)
    : value :=
  match spawn e cmd (isinstance_str cmd) with
  | Return p =>
      match formatted_version (VStr regexp) (VStr prefix) default_suffix
              default_encoding (proc_stdout p ++ proc_stderr p) with
      | Return v => v
      | Raise _ => VNone
      end
  | Raise _ => VNone
  end.

(** Lines 72-85 as a table: key, command, pattern, prefix. *)
Definition tool_rows (ascp : string)
    : list (string * value * string * string) :=
  [ ("ASCP", VList [VStr ascp; VStr "--version"],
     "ascp version\s+(?P<version>\S+)", "ascp ");
    ("BEDTOOLS", VStr "bedtools --version",
     "bedtools\s+(?P<version>\S+)", "bedtools ");
    ("BOWTIE2", VStr "bowtie2 --version",
     "version\s+(?P<version>\S+)", "bowtie2 ");
    ("CUFFLINKS", VStr "cufflinks --help",
     "cufflinks v(?P<version>\S+)", "cufflinks ");
    ("EPIC", VStr "epic --version",
     "epic\s+(?P<version>\S+)", "epic ");
    ("FASTQ_TOOLS", VStr "fastq-sort --version",
     "(?P<version>\d+(\.\d+)*)", "fastq-tools ");
    ("HISAT2", VStr "hisat2 --version",
     "version\s+(?P<version>\S+)", "hisat2 ");
    ("IDR", VStr "idr --version",
     "(?P<version>\d+(\.\d+)*)", "IDR ");
    ("KALLISTO", VStr "kallisto",
     "^kallisto\s+(?P<version>\S+)", "kallisto ");
    ("MACS", VStr "macs2 --version",
     "macs2\s+(?P<version>\S+)", "macs2 ");
    ("SALMON", VStr "salmon --version",
     "version\s+:\s+(?P<version>\S+)", "salmon ");
    ("SAMTOOLS", VStr "samtools",
     "Version:\s+(?P<version>\S+)", "samtools ");
    ("SRATOOLKIT", VStr "fastq-dump --version",
     ":\s+(?P<version>\S+)", "sratoolkit ");
    ("STAR", VStr "STAR --version",
     "STAR_(?P<version>\S+)", "STAR ") ].

(** The state after line 85. *)
Definition tools_state (s : state) : state :=
  let ascp := find_ascp (env s) in
  mkState (env s)
    (launched s
     ++ map (fun row => match row with (_, cmd, _, _) =>
                          (cmd, isinstance_str cmd) end)
            (tool_rows ascp))
    (bound s) ascp
    (foldl (fun t row => match row with (key, cmd, regexp, prefix) =>
                           <[key := probed (env s) cmd regexp prefix]> t end)
           ∅ (tool_rows ascp)).

(** Lines 88-100. *)
Definition r_blocks : M state unit :=
  r_block "R" "R.version$version.string" (fun v => VStr (join "" v));;
  r_block "BIOC" "as.character(BiocInstaller::biocVersion())"
    (fun v => VStr ("Bioconductor " +:+ join "" v)).

(** The state after [SOFTWARE_VERSIONS[key] = get_command_version_string(
    cmd, regexp, prefix=prefix)]. *)
Definition stored (key : string) (cmd : value) (regexp prefix : string)
    (s : state) : state :=
  mkState (env s) (launched s ++ [(cmd, isinstance_str cmd)]) (bound s)
          (ascp_path s)
          (<[key := probed (env s) cmd regexp prefix]> (SOFTWARE_VERSIONS s)).

(** The names bound once both imports of an R block succeeded. *)
Definition imported (s : state) : gset string :=
  {["RRuntimeError"]} ∪ ({["r"]} ∪ bound s).

(** What an R block stores for an answer of [r(...)] that it handles. *)
Definition r_entry (answer : outcome (list string))
    (f : list string -> value) : value :=
  match answer with
  | Return v => f v
  | Raise _ => VNone
  end.

End module_vocabulary.

Section lister_vocabulary.
Import list_python_modules.
Context `{L : PyLib}.

(** Every text followed by a line end, one after the other. *)
Fixpoint lines (texts : list string) : string :=
  match texts with
  | [] => ""
  | t :: rest => t +:+ newline +:+ lines rest
  end.

(** The command line of line 20. *)
Definition snakemake_argv (sf : string) : list string :=
  ["snakemake"; "--print-compilation"; "--snakefile"; sf].

(** Line 17 succeeds on the file. *)
Definition reads (s : state) (pf text : string) : Prop :=
  read_text (env s) pf = Return text.

(** Lines 20-21 succeed on the workflow file. *)
Definition compiles (s : state) (sf text : string) : Prop :=
  exists out,
    popen_stdout (env s) (snakemake_argv sf) = Return out
    /\ bytes_decode out (VStr getdefaultencoding) = Return text.

(** The temporary file takes the text: the encoding of the locale holds
    its characters. *)
Definition writable (s : state) (text : string) : Prop :=
  encodes (file_codec (env s)) text = true.

(** Standard output takes the text. *)
Definition printable (s : state) (text : string) : Prop :=
  encodes (stdout_codec (env s)) text = true.

(** A run that prints the report of some instructions and returns, or
    raises and prints nothing. *)
Definition prints_report_or_nothing (c : M state unit) : Prop :=
  forall s,
    (exists instructions,
       fst (c s) = Return tt
       /\ printed (snd (c s)) = printed s +:+ report instructions +:+ newline)
    \/ (exists ex, fst (c s) = Raise ex /\ printed (snd (c s)) = printed s).

End lister_vocabulary.

(* ===================================================================== *)
(** * Properties of [get_command_version_string] *)
(* ===================================================================== *)

Section get_command_version_string_properties.
Import tool_versions.
Context `{L : PyLib}.

(** The function, step by step: one launch, then the selected bytes are
    decoded, searched and formatted under the error policy. *)
Lemma get_command_version_string_unfold
    cmd regexp prefix suffix use_stderr encoding raise_on_error s :
  get_command_version_string cmd regexp prefix suffix use_stderr encoding
    raise_on_error s
  = (match spawn (env s) cmd (isinstance_str cmd) with
     | Return p =>
         version_in regexp prefix suffix encoding raise_on_error
           (searched_bytes use_stderr p)
     | Raise ex => if truth raise_on_error then Raise ex else Return VNone
     end,
     after_launch cmd s).
Proof.
  unfold get_command_version_string, try_except_Exception, version_in,
    formatted_version, searched_bytes, after_launch, Popen, communicate,
    lift, raise.
  unfold mbind, M_bind, mret, M_ret, outcome_bind; simpl.
  destruct (spawn (env s) cmd (isinstance_str cmd)) as [p|ex]; simpl.
  - assert (Hsel :
      (if is_None use_stderr then proc_stdout p ++ proc_stderr p
       else if truth use_stderr then proc_stderr p else proc_stdout p)
      = match use_stderr with
        | VNone => proc_stdout p ++ proc_stderr p
        | _ => if truth use_stderr then proc_stderr p else proc_stdout p
        end) by (destruct use_stderr; reflexivity).
    rewrite Hsel.
    destruct (bytes_decode _ encoding) as [text|ex]; simpl;
      [|destruct (truth raise_on_error); reflexivity].
    destruct (re_search regexp text) as [[m|]|ex]; simpl;
      try (destruct (truth raise_on_error); reflexivity).
    destruct (Match_group m "version") as [g|ex]; simpl;
      [|destruct (truth raise_on_error); reflexivity].
    destruct (add prefix (group_value g)) as [r0|ex]; simpl;
      [|destruct (truth raise_on_error); reflexivity].
    destruct (add r0 suffix) as [v|ex]; simpl;
      [reflexivity|destruct (truth raise_on_error); reflexivity].
  - destruct (truth raise_on_error); reflexivity.
Qed.

Lemma version_in_raises regexp prefix suffix encoding raise_on_error
    output ex :
  formatted_version regexp prefix suffix encoding output = Raise ex ->
  version_in regexp prefix suffix encoding raise_on_error output
  = if truth raise_on_error then Raise ex else Return VNone.
Proof. unfold version_in. intros ->. reflexivity. Qed.

Lemma version_in_found regexp prefix suffix encoding raise_on_error
    output text m v :
  bytes_decode output encoding = Return text ->
  re_search regexp text = Return (Some m) ->
  Match_group m "version" = Return (Some v) ->
  version_in regexp (VStr prefix) (VStr suffix) encoding raise_on_error
    output
  = Return (VStr ((prefix +:+ v) +:+ suffix)).
Proof.
  intros Hd Hs Hg. unfold version_in, formatted_version.
  rewrite Hd. simpl. rewrite Hs. simpl. rewrite Hg. reflexivity.
Qed.

Lemma probing_error_raises
    s cmd regexp prefix suffix use_stderr encoding ex raise_on_error :
  probing_error s cmd regexp prefix suffix use_stderr encoding ex ->
  fst (get_command_version_string cmd regexp prefix suffix use_stderr
         encoding raise_on_error s)
  = if truth raise_on_error then Raise ex else Return VNone.
Proof.
  intros Herr. rewrite get_command_version_string_unfold. simpl.
  destruct Herr as [ex Hl | p ex Hl Hd | p text ex Hl Hd Hs
                   | p text Hl Hd Hs | p text m ex Hl Hd Hs Hg
                   | p text m g ex Hl Hd Hs Hg Hc];
    rewrite Hl; try reflexivity; apply version_in_raises;
    unfold formatted_version;
    rewrite Hd; simpl; try reflexivity;
    rewrite Hs; simpl; try reflexivity;
    rewrite Hg; simpl; try reflexivity.
  exact Hc.
Qed.

(** C1.  Whatever fails while probing -- the launch of the process, the
    decoding of its output, the search (no match, or a pattern that is
    refused), the lookup of the named group [version], the concatenation
    with prefix and suffix -- the function returns [None] when
    [raise_on_error] is [False], which is its default, and raises that
    very exception when it is [True]. *)
Theorem get_command_version_string_error_policy
    s cmd regexp prefix suffix use_stderr encoding ex :
  probing_error s cmd regexp prefix suffix use_stderr encoding ex ->
  fst (get_command_version_string cmd regexp prefix suffix use_stderr
         encoding (VBool false) s) = Return VNone
  /\ fst (get_command_version_string cmd regexp prefix suffix use_stderr
            encoding default_raise_on_error s) = Return VNone
  /\ fst (get_command_version_string cmd regexp prefix suffix use_stderr
            encoding (VBool true) s) = Raise ex.
Proof.
  intros Herr.
  repeat split; rewrite (probing_error_raises _ _ _ _ _ _ _ _ _ Herr);
    reflexivity.
Qed.

(** C2.  When the selected and decoded output holds a match whose group
    [version] captured [v], the result is [prefix + v + suffix]. *)
Theorem get_command_version_string_success
    s cmd regexp prefix suffix use_stderr encoding raise_on_error
    p text m v :
  spawn (env s) cmd (isinstance_str cmd) = Return p ->
  bytes_decode (searched_bytes use_stderr p) encoding = Return text ->
  re_search regexp text = Return (Some m) ->
  Match_group m "version" = Return (Some v) ->
  fst (get_command_version_string cmd regexp (VStr prefix) (VStr suffix)
         use_stderr encoding raise_on_error s)
  = Return (VStr ((prefix +:+ v) +:+ suffix)).
Proof.
  intros Hl Hd Hs Hg.
  rewrite get_command_version_string_unfold. simpl.
  rewrite Hl. eapply version_in_found; eassumption.
Qed.

(** C3.  [use_stderr] selects the searched text: standard output followed
    by standard error for [None], standard error alone for [True],
    standard output alone for [False].  So with [use_stderr=False] a
    version that is only on standard error is not found: when the pattern
    finds nothing in standard output the result is [None], whatever
    standard error holds. *)
Theorem get_command_version_string_stream_selection
    s cmd regexp prefix suffix encoding raise_on_error p :
  spawn (env s) cmd (isinstance_str cmd) = Return p ->
  fst (get_command_version_string cmd regexp prefix suffix VNone
         encoding raise_on_error s)
  = version_in regexp prefix suffix encoding raise_on_error
      (proc_stdout p ++ proc_stderr p)
  /\ fst (get_command_version_string cmd regexp prefix suffix (VBool true)
            encoding raise_on_error s)
     = version_in regexp prefix suffix encoding raise_on_error
         (proc_stderr p)
  /\ fst (get_command_version_string cmd regexp prefix suffix (VBool false)
            encoding raise_on_error s)
     = version_in regexp prefix suffix encoding raise_on_error
         (proc_stdout p)
  /\ (forall text,
        bytes_decode (proc_stdout p) encoding = Return text ->
        re_search regexp text = Return None ->
        fst (get_command_version_string cmd regexp prefix suffix
               (VBool false) encoding (VBool false) s) = Return VNone).
Proof.
  intros Hl.
  repeat split;
    try (rewrite get_command_version_string_unfold; simpl; rewrite Hl;
         reflexivity).
  intros text Hd Hs.
  rewrite get_command_version_string_unfold. simpl. rewrite Hl.
  unfold version_in, formatted_version. simpl.
  rewrite Hd. simpl. rewrite Hs. reflexivity.
Qed.

(** C4.  The exit status plays no part: two runs whose children wrote the
    same bytes to standard output and to standard error give the same
    result, whatever their exit statuses.  A child that exits with a
    non-zero status and prints a version that the pattern finds gives
    the formatted version, not [None]. *)
Theorem get_command_version_string_ignores_exit_status
    s1 s2 cmd regexp prefix suffix use_stderr encoding raise_on_error
    p1 p2 :
  spawn (env s1) cmd (isinstance_str cmd) = Return p1 ->
  spawn (env s2) cmd (isinstance_str cmd) = Return p2 ->
  proc_stdout p1 = proc_stdout p2 ->
  proc_stderr p1 = proc_stderr p2 ->
  fst (get_command_version_string cmd regexp prefix suffix use_stderr
         encoding raise_on_error s1)
  = fst (get_command_version_string cmd regexp prefix suffix use_stderr
           encoding raise_on_error s2)
  /\ (forall prefix' suffix' text m v,
        proc_returncode p1 <> 0%Z ->
        bytes_decode (searched_bytes use_stderr p1) encoding = Return text ->
        re_search regexp text = Return (Some m) ->
        Match_group m "version" = Return (Some v) ->
        fst (get_command_version_string cmd regexp (VStr prefix')
               (VStr suffix') use_stderr encoding raise_on_error s1)
        = Return (VStr ((prefix' +:+ v) +:+ suffix'))).
Proof.
  intros Hl1 Hl2 Hout Herr. split.
  - rewrite !get_command_version_string_unfold. simpl.
    rewrite Hl1, Hl2. f_equal.
    unfold searched_bytes. rewrite Hout, Herr. reflexivity.
  - intros prefix' suffix' text m v _ Hd Hs Hg.
    rewrite get_command_version_string_unfold. simpl.
    rewrite Hl1. eapply version_in_found; eassumption.
Qed.

(** C9.  The representation of [cmd] selects the invocation mode: a
    string is launched through a shell, an argument list directly.  The
    call makes exactly one launch. *)
Theorem get_command_version_string_invocation_mode
    s regexp prefix suffix use_stderr encoding raise_on_error :
  (forall c : string,
     launched (snd (get_command_version_string (VStr c) regexp prefix
                      suffix use_stderr encoding raise_on_error s))
     = launched s ++ [(VStr c, true)])
  /\ (forall args : list value,
     launched (snd (get_command_version_string (VList args) regexp prefix
                      suffix use_stderr encoding raise_on_error s))
     = launched s ++ [(VList args, false)]).
Proof.
  split; intros; rewrite get_command_version_string_unfold; reflexivity.
Qed.



End get_command_version_string_properties.

(** ** Runs on the sample machine *)

Section get_command_version_string_runs.
Import tool_versions Samples.

#[local] Existing Instance Concrete.lib.

#[local] Abbreviation probe :=
  (get_command_version_string (L := Concrete.lib)).

(** C1 on a run: the pattern [release (?P<version>\d+)] finds nothing in
    [tool v2.3.1]. *)
Lemma get_command_version_string_error_policy_witness :
  probing_error (L := Concrete.lib) on_stdout tool_version release_pattern
    (VStr "tool ") (VStr "") VNone utf_8 no_match
  /\ probe tool_version release_pattern (VStr "tool ") (VStr "") VNone
       utf_8 (VBool false) on_stdout
     = (Return VNone, after_launch tool_version on_stdout)
  /\ fst (probe tool_version release_pattern (VStr "tool ") (VStr "") VNone
            utf_8 (VBool true) on_stdout) = Raise no_match.
Proof.
  assert (H : probing_error (L := Concrete.lib) on_stdout tool_version
                release_pattern (VStr "tool ") (VStr "") VNone utf_8
                no_match)
    by (eapply match_failure; reflexivity).
  split; [exact H|].
  destruct (get_command_version_string_error_policy (L := Concrete.lib)
              _ _ _ _ _ _ _ _ H) as (H1 & _ & H2).
  split; [|exact H2].
  rewrite get_command_version_string_unfold. reflexivity.
Defined.

(** C2 on the run of the design note: [tool v2.3.1] on standard output,
    the pattern [v(?P<version>(\d+\.)*\d+)] and the prefix [tool ] give
    [tool 2.3.1]. *)
Lemma get_command_version_string_success_witness :
  fst (probe tool_version version_pattern (VStr "tool ") default_suffix
         default_use_stderr default_encoding default_raise_on_error
         on_stdout)
  = Return (VStr "tool 2.3.1").
Proof.
  refine (get_command_version_string_success (L := Concrete.lib) on_stdout
            tool_version version_pattern "tool " "" default_use_stderr
            default_encoding default_raise_on_error
            (mkProcess (bytes banner) (bytes "") 0) banner
            (Concrete.mkMatch banner
               [(0, (5, 11)); (1, (6, 11)); (2, (8, 10)); (2, (6, 8))]
               [("version", 1)])
            "2.3.1" _ _ _ _); reflexivity.
Defined.

(** C3 on a run: the version is on standard error only.  It is found
    with [use_stderr] at [None] or [True] and not with [False]. *)
Lemma get_command_version_string_stream_selection_witness :
  spawn (env on_stderr) tool_version (isinstance_str tool_version)
    = Return (mkProcess (bytes "") (bytes banner) 0)
  /\ fst (probe tool_version version_pattern (VStr "tool ") (VStr "")
            VNone utf_8 (VBool false) on_stderr)
     = Return (VStr "tool 2.3.1")
  /\ fst (probe tool_version version_pattern (VStr "tool ") (VStr "")
            (VBool true) utf_8 (VBool false) on_stderr)
     = Return (VStr "tool 2.3.1")
  /\ fst (probe tool_version version_pattern (VStr "tool ") (VStr "")
            (VBool false) utf_8 (VBool false) on_stderr)
     = Return VNone.
Proof.
  assert (H : spawn (env on_stderr) tool_version
                (isinstance_str tool_version)
              = Return (mkProcess (bytes "") (bytes banner) 0))
    by reflexivity.
  split; [exact H|].
  destruct (get_command_version_string_stream_selection
              (L := Concrete.lib) on_stderr tool_version version_pattern
              (VStr "tool ") (VStr "") utf_8 (VBool false) _ H)
    as (H1 & H2 & _ & H4).
  rewrite H1, H2.
  split; [reflexivity|]. split; [reflexivity|].
  apply (H4 ""); reflexivity.
Defined.

(** C4 on a run: the same output with exit status 0 and with exit status
    1 gives the same result, the formatted version. *)
Lemma get_command_version_string_ignores_exit_status_witness :
  proc_returncode (mkProcess (bytes banner) (bytes "") 1) <> 0%Z
  /\ fst (probe tool_version version_pattern (VStr "tool ") (VStr "")
            VNone utf_8 (VBool false) on_stdout_failing)
     = fst (probe tool_version version_pattern (VStr "tool ") (VStr "")
              VNone utf_8 (VBool false) on_stdout)
  /\ fst (probe tool_version version_pattern (VStr "tool ") (VStr "")
            VNone utf_8 (VBool false) on_stdout_failing)
     = Return (VStr "tool 2.3.1").
Proof.
  assert (Hrc : proc_returncode (mkProcess (bytes banner) (bytes "") 1)
                <> 0%Z) by discriminate.
  split; [exact Hrc|].
  destruct (get_command_version_string_ignores_exit_status
              (L := Concrete.lib) on_stdout_failing on_stdout tool_version
              version_pattern (VStr "tool ") (VStr "") VNone utf_8
              (VBool false)
              (mkProcess (bytes banner) (bytes "") 1)
              (mkProcess (bytes banner) (bytes "") 0)
              eq_refl eq_refl eq_refl eq_refl) as [Heq Hfound].
  split; [exact Heq|].
  apply (Hfound "tool " "" banner
           (Concrete.mkMatch banner
              [(0, (5, 11)); (1, (6, 11)); (2, (8, 10)); (2, (6, 8))]
              [("version", 1)])
           "2.3.1" Hrc); reflexivity.
Defined.


(** A [UserString] takes [None] as well: with a pattern whose group
    [version] is unset the result is [UserString('tool None')]. *)
Example get_command_version_string_UserString_None :
  fst (probe tool_version either_pattern (Concrete.UserString "tool ")
         default_suffix default_use_stderr default_encoding
         default_raise_on_error on_stdout)
  = Return (Concrete.UserString "tool None").
Proof. vm_compute. reflexivity. Qed.

End get_command_version_string_runs.

(* ===================================================================== *)
(** * Properties of [R_package_version] *)
(* ===================================================================== *)

Section R_package_version_properties.
Import tool_versions.

(** The function, step by step. *)
Lemma R_package_version_unfold pkgname s :
  R_package_version pkgname s
  = (match
       (_ ← import_from (env s) "rpy2.robjects" "r";
        _ ← import_from (env s) "rpy2.rinterface" "RRuntimeError";
        vec ← installed_packages (env s);
        match rx vec pkgname with
        | NA_character => Raise no_package_version
        | RString v => Return (VStr (join " " [pkgname; v]))
        end)
     with
     | Return v => Return v
     | Raise _ => Return VNone
     end, s).
Proof.
  unfold R_package_version, try_except_Exception, import_local,
    r_installed_packages, raise.
  unfold mbind, M_bind, mret, M_ret, outcome_bind.
  destruct (import_from (env s) "rpy2.robjects" "r") as [[]|ex];
    [|reflexivity].
  destruct (import_from (env s) "rpy2.rinterface" "RRuntimeError")
    as [[]|ex]; [|reflexivity].
  destruct (installed_packages (env s)) as [vec|ex]; [|reflexivity].
  destruct (rx vec pkgname); reflexivity.
Qed.

(** C7.  When the registry of installed packages has no version for the
    name (NA), the function returns [None] and does not raise: the
    [ValueError] it raises is caught by its own handler. *)
Theorem R_package_version_not_installed s pkgname vec :
  installed_packages (env s) = Return vec ->
  rx vec pkgname = NA_character ->
  fst (R_package_version pkgname s) = Return VNone.
Proof.
  intros Hvec Hna. rewrite R_package_version_unfold. simpl.
  destruct (import_from (env s) "rpy2.robjects" "r") as [[]|ex];
    [|reflexivity].
  destruct (import_from (env s) "rpy2.rinterface" "RRuntimeError")
    as [[]|ex]; [|reflexivity].
  simpl. rewrite Hvec. simpl. rewrite Hna. reflexivity.
Qed.

(** C7 on a run: R is installed, the package is not. *)
Lemma R_package_version_not_installed_witness :
  installed_packages (env Samples.with_r)
    = Return [("stats", RString "3.4.0")]
  /\ rx [("stats", RString "3.4.0")] "nonexistent-package" = NA_character
  /\ fst (R_package_version "nonexistent-package" Samples.with_r)
     = Return VNone.
Proof.
  split; [reflexivity|]. split; [reflexivity|].
  apply (R_package_version_not_installed Samples.with_r
           "nonexistent-package" [("stats", RString "3.4.0")]);
    reflexivity.
Defined.

(** The handler catches whatever the body raises: the function raises on
    no machine and for no name. *)
Lemma R_package_version_never_raises s pkgname :
  exists v, fst (R_package_version pkgname s) = Return v.
Proof.
  rewrite R_package_version_unfold. simpl.
  match goal with
  | |- exists v, match ?o with _ => _ end = _ => destruct o; eauto
  end.
Qed.

(** An installed package is reported as its name and version. *)
Example R_package_version_installed :
  fst (R_package_version "stats" Samples.with_r)
  = Return (VStr "stats 3.4.0").
Proof. reflexivity. Qed.

End R_package_version_properties.

(* ===================================================================== *)
(** * The table [SOFTWARE_VERSIONS] *)
(* ===================================================================== *)

Section module_properties.
Import tool_versions.
Context `{L : PyLib}.

Lemma follows_refl s : follows s s.
Proof. unfold follows. tauto. Qed.

Lemma follows_trans s1 s2 s3 :
  follows s1 s2 -> follows s2 s3 -> follows s1 s3.
Proof.
  unfold follows. intros (He & Hb & Hc) (He' & Hb' & Hc').
  rewrite He in *. repeat split; [congruence|tauto|tauto].
Qed.

Lemma respectful_bind {A B} (c : M state A) (f : A -> M state B) :
  respectful c -> (forall a, respectful (f a)) -> respectful (c ≫= f).
Proof.
  intros Hc Hf s s' H. unfold mbind, M_bind.
  destruct (Hc s s' H) as [Ho Hs].
  destruct (c s) as [[a|ex] t], (c s') as [[a'|ex'] t']; simpl in *;
    try discriminate.
  - injection Ho as ->. apply Hf, Hs.
  - injection Ho as ->. split; [reflexivity | exact Hs].
Qed.

Lemma tame_bind {A B} (c : M state A) (f : A -> M state B) :
  tame c -> (forall a, tame (f a)) -> tame (c ≫= f).
Proof.
  intros Hc Hf s. unfold mbind, M_bind.
  specialize (Hc s). destruct (c s) as [[a|ex] t]; simpl in *.
  - eapply follows_trans; [exact Hc | apply Hf].
  - exact Hc.
Qed.

Lemma respectful_setitem key v : respectful (setitem key v).
Proof.
  intros s s' (He & Ha & Ht & Hb). split; [reflexivity|].
  unfold alike; simpl. rewrite Ht. tauto.
Qed.

Lemma tame_setitem key v : tame (setitem key v).
Proof. intros s. unfold follows; simpl. tauto. Qed.

Lemma respectful_gets_ascp_path : respectful (gets ascp_path).
Proof.
  intros s s' H. split; [|exact H].
  destruct H as (_ & Ha & _). simpl. now rewrite Ha.
Qed.

Lemma tame_gets {A} (f : state -> A) : tame (gets f).
Proof. intros s. apply follows_refl. Qed.

Lemma respectful_record_version key cmd regexp prefix :
  respectful (record_version key cmd regexp prefix).
Proof.
  unfold record_version. apply respectful_bind.
  - intros s s' (He & Ha & Ht & Hb).
    rewrite !get_command_version_string_unfold. simpl.
    split; [rewrite He; reflexivity|].
    unfold alike; simpl. tauto.
  - intros v. apply respectful_setitem.
Qed.

Lemma tame_record_version key cmd regexp prefix :
  tame (record_version key cmd regexp prefix).
Proof.
  unfold record_version. apply tame_bind.
  - intros s. rewrite get_command_version_string_unfold.
    unfold follows; simpl. tauto.
  - intros v. apply tame_setitem.
Qed.

Lemma not_r : "RRuntimeError" ∈ ({["r"]} : gset string) -> False.
Proof. rewrite elem_of_singleton. discriminate. Qed.

Lemma bound_after_imports (b : gset string) :
  "RRuntimeError" ∈ {["RRuntimeError"]} ∪ ({["r"]} ∪ b).
Proof. apply elem_of_union_l, elem_of_singleton. reflexivity. Qed.

(** An R block runs alike from states that are alike. *)
Lemma respectful_r_block key expr f : respectful (r_block key expr f).
Proof.
  intros s s' (He & Ha & Ht & Hb).
  unfold r_block, try_except_RRuntimeError, import_name, r, setitem, modify.
  unfold mbind, M_bind. rewrite <- He.
  unfold alike, rpy2_imports in *.
  destruct (import_from (env s) "rpy2.robjects" "r") as [[]|ex] eqn:H1;
    simpl.
  - destruct (import_from (env s) "rpy2.rinterface" "RRuntimeError")
      as [[]|ex] eqn:H2; simpl.
    + destruct (r_eval (env s) expr) as [v|ex] eqn:H3; simpl.
      * rewrite ?Ht. repeat split; auto.
      * rewrite !bool_decide_eq_true_2 by apply bound_after_imports.
        destruct (isinstance ex RRuntimeError); simpl;
          rewrite ?Ht; repeat split; auto.
    + assert (Hiff : "RRuntimeError" ∈ {["r"]} ∪ bound s
                     <-> "RRuntimeError" ∈ {["r"]} ∪ bound s').
      { destruct Hb as [Hb|[_ Hb]]; [|discriminate].
        rewrite !elem_of_union. pose proof not_r. tauto. }
      destruct (decide ("RRuntimeError" ∈ {["r"]} ∪ bound s)) as [Hin|Hin].
      * rewrite !bool_decide_eq_true_2 by tauto.
        destruct (isinstance ex RRuntimeError); simpl;
          rewrite ?Ht; repeat split; auto.
      * rewrite !bool_decide_eq_false_2 by tauto. simpl.
        repeat split; auto.
  - assert (Hiff : "RRuntimeError" ∈ bound s <-> "RRuntimeError" ∈ bound s').
    { destruct Hb as [Hb|[Hb _]]; [exact Hb|discriminate]. }
    destruct (decide ("RRuntimeError" ∈ bound s)) as [Hin|Hin].
    + rewrite !bool_decide_eq_true_2 by tauto.
      destruct (isinstance ex RRuntimeError); simpl;
        rewrite ?Ht; repeat split; auto.
    + rewrite !bool_decide_eq_false_2 by tauto. simpl.
      repeat split; auto.
Qed.

Lemma tame_r_block key expr f : tame (r_block key expr f).
Proof.
  intros s.
  unfold r_block, try_except_RRuntimeError, import_name, r, setitem, modify.
  unfold mbind, M_bind. unfold follows, rpy2_imports.
  destruct (import_from (env s) "rpy2.robjects" "r") as [[]|ex] eqn:H1;
    simpl.
  - destruct (import_from (env s) "rpy2.rinterface" "RRuntimeError")
      as [[]|ex] eqn:H2; simpl.
    + destruct (r_eval (env s) expr) as [v|ex] eqn:H3; simpl.
      * repeat split; auto. intros _. apply bound_after_imports.
      * rewrite !bool_decide_eq_true_2 by apply bound_after_imports.
        destruct (isinstance ex RRuntimeError); simpl;
          repeat split; auto; intros _; apply bound_after_imports.
    + destruct (bool_decide _);
        [destruct (isinstance ex RRuntimeError)|]; simpl;
        (split; [reflexivity|]); rewrite !elem_of_union;
        pose proof not_r; tauto.
  - destruct (bool_decide _);
      [destruct (isinstance ex RRuntimeError)|]; simpl; tauto.
Qed.

Lemma modify_then {A} (f : state -> state) (c : M state A) s :
  (modify f;; c) s = c (f s).
Proof. reflexivity. Qed.

(** The module body ends alike from two states on the same machine that
    agree on the name [RRuntimeError]: lines 67 and 69 overwrite both
    variables. *)
Lemma module_body_respectful s s' :
  env s = env s' ->
  ("RRuntimeError" ∈ bound s <-> "RRuntimeError" ∈ bound s')
    \/ rpy2_imports (env s) ->
  fst (module_body s) = fst (module_body s')
  /\ alike (snd (module_body s)) (snd (module_body s')).
Proof.
  intros He Hb. unfold module_body. rewrite !modify_then.
  match goal with
  | |- fst (?c ?a) = fst (?c ?b) /\ _ =>
      enough (respectful c) as H
        by (apply H; unfold alike; simpl; rewrite <- He; tauto)
  end.
  repeat first [ apply respectful_gets_ascp_path
               | apply respectful_record_version
               | apply respectful_r_block
               | apply respectful_bind; [|intros ?] ].
Qed.

Lemma module_body_tame : tame module_body.
Proof.
  intros s. unfold module_body. rewrite !modify_then.
  match goal with
  | |- follows s (snd (?c ?a)) =>
      apply (follows_trans _ a); [unfold follows; simpl; tauto|];
      enough (tame c) as H by apply H
  end.
  repeat first [ apply tame_gets
               | apply tame_record_version
               | apply tame_r_block
               | apply tame_bind; [|intros ?] ].
Qed.

(** C8.  Running the module a second time in the same process, from the
    state that the first run left, leaves the machine as it was, ends as
    the first run ended and builds the same table. *)
Theorem SOFTWARE_VERSIONS_idempotent s :
  env (snd (module_body s)) = env s
  /\ fst (module_body (snd (module_body s))) = fst (module_body s)
  /\ SOFTWARE_VERSIONS (snd (module_body (snd (module_body s))))
     = SOFTWARE_VERSIONS (snd (module_body s)).
Proof.
  destruct (module_body_tame s) as (He & Hb & Hc).
  split; [exact He|].
  destruct (module_body_respectful s (snd (module_body s))) as [Ho Ha].
  - symmetry. exact He.
  - unfold rpy2_imports in *.
    destruct (import_from (env s) "rpy2.robjects" "r") as [[]|ex];
      [destruct (import_from (env s) "rpy2.rinterface" "RRuntimeError")
         as [[]|ex']|].
    + right. auto.
    + left. split; [exact Hb|]. intros H. destruct (Hc H) as [|[_ ?]];
        [assumption|discriminate].
    + left. split; [exact Hb|]. intros H. destruct (Hc H) as [|[? _]];
        [assumption|discriminate].
  - split; [symmetry; exact Ho|].
    destruct Ha as (_ & _ & Ht & _). symmetry. exact Ht.
Qed.

End module_properties.

(* ===================================================================== *)
(** * Properties of the module lister *)
(* ===================================================================== *)

Section strings.

Lemma append_assoc (a b c : string) : (a +:+ b) +:+ c = a +:+ (b +:+ c).
Proof.
  induction a as [|x a IH]; [reflexivity | exact (f_equal (String x) IH)].
Qed.

Lemma append_nil_r (a : string) : a +:+ "" = a.
Proof.
  induction a as [|x a IH]; [reflexivity | exact (f_equal (String x) IH)].
Qed.

End strings.

Section list_python_modules_properties.
Import list_python_modules.
Context `{L : PyLib}.





(** Listing files leaves the state as it is. *)
Lemma list_files_state cmd s : snd (list_files cmd s) = s.
Proof.
  unfold list_files, shell_output, lift. unfold mbind, M_bind, mret, M_ret.
  destruct (check_output (env s) cmd); simpl; [|reflexivity].
  destruct (bytes_decode _ _); reflexivity.
Qed.

Lemma quiet_bind {A B} (c : M state A) (f : A -> M state B) :
  quiet c -> (forall a, quiet (f a)) -> quiet (c ≫= f).
Proof.
  intros Hc Hf s. unfold mbind, M_bind. specialize (Hc s).
  destruct (c s) as [[a|ex] t]; simpl in *; [|exact Hc].
  destruct (Hf a t) as [He Hp]. rewrite He, Hp. exact Hc.
Qed.

Lemma quiet_for_in {A} (l : list A) (body : A -> M state unit) :
  (forall x, quiet (body x)) -> quiet (for_in l body).
Proof.
  intros Hbody. induction l as [|x l IH]; simpl.
  - intros s. split; reflexivity.
  - apply quiet_bind; [apply Hbody | intros _; exact IH].
Qed.

Lemma quiet_write text : quiet (write text).
Proof.
  intros s. unfold write. destruct (encodes _ _); split; reflexivity.
Qed.

Lemma quiet_gather python_files snakefiles :
  quiet (gather python_files snakefiles).
Proof.
  unfold gather.
  repeat first
    [ apply quiet_write
    | apply quiet_for_in; intros ?
    | apply quiet_bind; [|intros ?]
    | (intros s; split; reflexivity)
    | (intros s; unfold lift; simpl; split; reflexivity) ].
Qed.

(** ** What the codecs take *)


Lemma encodes_newline codec : encodes codec newline = true.
Proof. reflexivity. Qed.


Lemma write_run text s :
  writable s text ->
  write text s
  = (Return tt,
     mkState (env s) (launched s) (tempf s +:+ text) (printed s)).
Proof. unfold writable, write. now intros ->. Qed.

Lemma write_refused text s :
  encodes (file_codec (env s)) text = false ->
  write text s = (Raise cannot_encode, s).
Proof. unfold write. now intros ->. Qed.

(** A text and its line end, lines 17-18 and 21-22. *)
Lemma write_line text s :
  writable s text ->
  (write text;; write newline) s
  = (Return tt,
     mkState (env s) (launched s) (tempf s +:+ text +:+ newline) (printed s)).
Proof.
  intros Hw. unfold mbind, M_bind. rewrite (write_run text s Hw).
  rewrite write_run by apply encodes_newline.
  cbn [env launched tempf printed]. now rewrite append_assoc.
Qed.

(** What was read from a file can be written. *)
Lemma reads_writable s pf text : reads s pf text -> writable s text.
Proof. apply read_text_encodes. Qed.

Lemma lines_app l1 l2 : lines (l1 ++ l2) = lines l1 +:+ lines l2.
Proof.
  induction l1 as [|t l1 IH]; [reflexivity|].
  cbn [lines app]. now rewrite IH, !append_assoc.
Qed.

(** The loop of lines 16-18 when every file can be read. *)
Lemma for_in_reads python_files texts s :
  Forall2 (reads s) python_files texts ->
  for_in python_files (fun pf =>
    text ← open_read pf; write text;; write newline) s
  = (Return tt,
     mkState (env s) (launched s) (tempf s +:+ lines texts) (printed s)).
Proof.
  intros H. revert texts s H.
  induction python_files as [|pf pfs IH]; intros texts s H;
    inversion H as [|? t ? ts Hr Hrest]; subst; cbn [for_in lines].
  - rewrite append_nil_r. now destruct s.
  - unfold mbind at 1, M_bind at 1.
    unfold mbind at 1, M_bind at 1. unfold open_read at 1.
    pose proof (reads_writable s pf t Hr) as Hw.
    unfold reads in Hr. rewrite Hr.
    rewrite (write_line t s Hw).
    rewrite (IH ts) by exact Hrest.
    cbn [env launched tempf printed]. now rewrite !append_assoc.
Qed.

(** The loop of lines 19-22 when every workflow file compiles to a text
    that can be written. *)
Lemma for_in_compiles snakefiles texts s :
  Forall2 (compiles s) snakefiles texts ->
  Forall (writable s) texts ->
  for_in snakefiles (fun sf =>
    out ← Popen_read
            ["snakemake"; "--print-compilation"; "--snakefile"; sf];
    text ← lift (bytes_decode out (VStr getdefaultencoding));
    write text;; write newline) s
  = (Return tt,
     mkState (env s) (launched s ++ map snakemake_argv snakefiles)
             (tempf s +:+ lines texts) (printed s)).
Proof.
  intros H. revert texts s H.
  induction snakefiles as [|sf sfs IH]; intros texts s H Hw;
    inversion H as [|? t ? ts Hc Hrest]; subst; cbn [for_in lines map].
  - rewrite append_nil_r, app_nil_r. now destruct s.
  - destruct Hc as (out & Hp & Hd). unfold snakemake_argv in Hp.
    apply Forall_cons in Hw as [Hwt Hws].
    unfold mbind at 1, M_bind at 1.
    unfold mbind at 1, M_bind at 1. unfold Popen_read at 1.
    rewrite Hp.
    unfold mbind at 1, M_bind at 1. unfold lift at 1. rewrite Hd.
    rewrite write_line by exact Hwt.
    rewrite (IH ts) by assumption.
    cbn [env launched tempf printed].
    now rewrite !append_assoc, <- app_assoc.
Qed.

(** Lines 15-25 when every file can be read and every workflow file
    compiles to a text that can be written. *)
Lemma gather_collects s python_files texts snakefiles compiled :
  Forall2 (reads s) python_files texts ->
  Forall2 (compiles s) snakefiles compiled ->
  Forall (writable s) compiled ->
  gather python_files snakefiles s
  = (Return (universal_newlines (lines texts +:+ lines compiled)),
     mkState (env s) (launched s ++ map snakemake_argv snakefiles)
             (lines texts +:+ lines compiled) (printed s)).
Proof.
  intros Hr Hc Hw. unfold gather. unfold mbind at 1, M_bind at 1.
  unfold modify at 1.
  unfold mbind at 1, M_bind at 1.
  rewrite (for_in_reads python_files texts) by exact Hr.
  unfold mbind at 1, M_bind at 1.
  rewrite (for_in_compiles snakefiles compiled) by assumption.
  reflexivity.
Qed.

(** The script, once both listings and the combined text are there. *)
Lemma main_unfold s python_files snakefiles :
  fst (list_files find_python_files s) = Return python_files ->
  fst (list_files find_snakefiles s) = Return snakefiles ->
  main s
  = (gather python_files snakefiles ≫= fun fulltext =>
     (fun s => (get_instructions (env s) fulltext, s)) ≫= fun instructions =>
     print (report instructions)) s.
Proof.
  intros Hpy Hsn. unfold main. unfold mbind at 1, M_bind at 1.
  pose proof (list_files_state find_python_files s) as H1.
  destruct (list_files find_python_files s) as [o1 s1].
  simpl in Hpy, H1. subst o1 s1.
  unfold mbind at 1, M_bind at 1.
  pose proof (list_files_state find_snakefiles s) as H2.
  destruct (list_files find_snakefiles s) as [o2 s2].
  simpl in Hsn, H2. subst o2 s2. reflexivity.
Qed.

(** The script from the combined text on: the text is disassembled and
    the report printed. *)
Lemma main_reports s python_files snakefiles fulltext instructions :
  fst (list_files find_python_files s) = Return python_files ->
  fst (list_files find_snakefiles s) = Return snakefiles ->
  fst (gather python_files snakefiles s) = Return fulltext ->
  get_instructions (env s) fulltext = Return instructions ->
  printable s (report instructions) ->
  fst (main s) = Return tt
  /\ printed (snd (main s)) = printed s +:+ report instructions +:+ newline.
Proof.
  intros Hpy Hsn Hga Hdis Hpr.
  rewrite (main_unfold s python_files snakefiles Hpy Hsn).
  unfold mbind at 1 3, M_bind at 1 3.
  destruct (quiet_gather python_files snakefiles s) as [He Hp].
  destruct (gather python_files snakefiles s) as [o3 s3].
  simpl in Hga, He, Hp. subst o3.
  unfold disassemble, mbind, M_bind. rewrite He, Hdis.
  unfold print. rewrite He. unfold printable in Hpr. rewrite Hpr.
  cbn [fst snd printed]. now rewrite Hp.
Qed.


(** [split] never returns the empty list. *)
Lemma split_cons sep s : exists w ws, split sep s = w :: ws.
Proof.
  induction s as [|c s IH]; simpl; [eauto|].
  destruct (Ascii.eqb c sep); [eauto|].
  destruct IH as (w & ws & ->). eauto.
Qed.

(** A listing command that prints nothing is read as one file, whose
    name is empty. *)
Lemma list_files_no_match cmd s :
  check_output (env s) cmd = Return [] ->
  bytes_decode [] (VStr getdefaultencoding) = Return "" ->
  fst (list_files cmd s) = Return [""].
Proof.
  intros Hout Hdec. unfold list_files, shell_output, lift.
  unfold mbind, M_bind, mret, M_ret. rewrite Hout, Hdec. reflexivity.
Qed.

(** Whatever the listing command prints, the list of files is not
    empty. *)
Lemma list_files_not_empty cmd s files :
  fst (list_files cmd s) = Return files -> exists f fs, files = f :: fs.
Proof.
  unfold list_files, shell_output, lift. unfold mbind, M_bind, mret, M_ret.
  destruct (check_output (env s) cmd); simpl; [|discriminate].
  destruct (bytes_decode _ _) as [text|]; simpl; [|discriminate].
  intros [= <-]. apply split_cons.
Qed.

End list_python_modules_properties.

(** ** Runs on the sample directories *)

Section list_python_modules_runs.
Import list_python_modules ListerSamples.

#[local] Existing Instance Concrete.lib.


(** The same run, computed: four lines. *)
Example main_two_of_each :
  fst (main two_of_each) = Return tt
  /\ launched (snd (main two_of_each))
     = [ ["snakemake"; "--print-compilation"; "--snakefile"; "./Snakefile"];
         ["snakemake"; "--print-compilation"; "--snakefile";
          "./sub/Snakefile"] ]
  /\ tempf (snd (main two_of_each)) = project_text
  /\ printed (snd (main two_of_each))
     = line "json" +:+ line "os" +:+ line "re" +:+ line "sys".
Proof. vm_compute. repeat split; reflexivity. Qed.

(** The same run, computed: two lines, [os] and [sys]. *)
Example main_os_sys_os :
  main both_kinds
  = (Return tt,
     mkState (env both_kinds)
       [["snakemake"; "--print-compilation"; "--snakefile"; "./Snakefile"]]
       (line "import os" +:+ line "import sys" +:+ newline
        +:+ line "import os" +:+ newline)
       (line "os" +:+ line "sys")).
Proof. vm_compute. reflexivity. Qed.

Example report_os_sys_os : report os_sys_os = join newline ["os"; "sys"].
Proof. vm_compute. reflexivity. Qed.

(** C6, as the code has it.  When [find] prints nothing for a pattern,
    the list of candidate files is not empty: it holds the empty name.
    With no Python file the script opens the empty path and stops on
    [FileNotFoundError]; with no workflow file it runs the workflow
    compiler once, on the empty path. *)
Theorem main_when_nothing_matches :
  fst (list_files find_python_files no_python_file) = Return [""]
  /\ fst (main no_python_file) = Raise Samples.file_not_found
  /\ printed (snd (main no_python_file)) = ""
  /\ fst (list_files find_snakefiles no_snakefile) = Return [""]
  /\ launched (snd (main no_snakefile))
     = [["snakemake"; "--print-compilation"; "--snakefile"; ""]].
Proof. vm_compute. repeat split; reflexivity. Qed.

End list_python_modules_runs.

(* ===================================================================== *)
(** * Runs of the module and checks of the fragment *)
(* ===================================================================== *)

Section module_runs.
Import tool_versions Samples.

#[local] Existing Instance Concrete.lib.

(** On the sample pipeline machine with [rpy2]: the versions of [ascp],
    [bedtools] and [samtools] (which fails, and prints on standard error)
    are found; the answer of the shell to an unknown command is searched
    like any output, and the pattern of [SRATOOLKIT], which takes what
    follows a colon, finds a version in it; [BiocInstaller] is missing and
    [BIOC] is [None]. *)
Example module_body_with_r :
  fst (module_body (initial (pipeline_machine true))) = Return tt
  /\ SOFTWARE_VERSIONS (snd (module_body (initial (pipeline_machine true))))
     = list_to_map
         [ ("ASCP", VStr "ascp 3.5.4.102989");
           ("BEDTOOLS", VStr "bedtools v2.26.0");
           ("BOWTIE2", VNone); ("CUFFLINKS", VNone); ("EPIC", VNone);
           ("FASTQ_TOOLS", VNone); ("HISAT2", VNone); ("IDR", VNone);
           ("KALLISTO", VNone); ("MACS", VNone); ("SALMON", VNone);
           ("SAMTOOLS", VStr "samtools 1.3.1");
           ("SRATOOLKIT", VStr "sratoolkit command");
           ("STAR", VNone);
           ("R", VStr "R version 3.4.0 (2017-04-21)");
           ("BIOC", VNone) ].
Proof. vm_compute. split; reflexivity. Qed.

(** The first launch is direct, the others go through a shell. *)
Example module_body_launches :
  launched (snd (module_body (initial (pipeline_machine true))))
  = [ (VList [VStr "/usr/bin/ascp"; VStr "--version"], false);
      (VStr "bedtools --version", true); (VStr "bowtie2 --version", true);
      (VStr "cufflinks --help", true); (VStr "epic --version", true);
      (VStr "fastq-sort --version", true); (VStr "hisat2 --version", true);
      (VStr "idr --version", true); (VStr "kallisto", true);
      (VStr "macs2 --version", true); (VStr "salmon --version", true);
      (VStr "samtools", true); (VStr "fastq-dump --version", true);
      (VStr "STAR --version", true) ].
Proof. vm_compute. reflexivity. Qed.

(** Without [rpy2] the first import of line 89 fails before the name
    [RRuntimeError] is bound, and looking the name up for the except
    clause raises [NameError]: the module stops with the fourteen entries
    of the command-line tools in the table. *)
Example module_body_without_rpy2 :
  fst (module_body (initial (pipeline_machine false)))
    = Raise RRuntimeError_undefined
  /\ dom (SOFTWARE_VERSIONS
            (snd (module_body (initial (pipeline_machine false)))))
     = list_to_set
         [ "ASCP"; "BEDTOOLS"; "BOWTIE2"; "CUFFLINKS"; "EPIC"; "FASTQ_TOOLS";
           "HISAT2"; "IDR"; "KALLISTO"; "MACS"; "SALMON"; "SAMTOOLS";
           "SRATOOLKIT"; "STAR" ].
Proof. vm_compute. split; reflexivity. Qed.

End module_runs.

Section fragment_checks.
Import tool_versions Samples ListerSamples.

(** [' ./a.py\n./b/c.py\n'.strip().split('\n')] *)
Example split_find_output :
  split LF (strip (line "./a.py" +:+ line "./b/c.py"))
  = ["./a.py"; "./b/c.py"].
Proof. reflexivity. Qed.

(** [''.strip().split('\n') == ['']] *)
Example split_nothing : split LF (strip "") = [""].
Proof. reflexivity. Qed.

(** ['a\n\nb\n'.split('\n') == ['a', '', 'b', '']] *)
Example split_keeps_empty_fields :
  split LF (line "a" +:+ newline +:+ line "b") = ["a"; ""; "b"; ""].
Proof. reflexivity. Qed.

Example strip_both_ends : strip ("  a b " +:+ newline) = "a b".
Proof. reflexivity. Qed.

Example join_lines : join newline ["os"; "sys"] = "os" +:+ newline +:+ "sys".
Proof. reflexivity. Qed.

(** CR LF and a lone CR are read back as LF. *)
Example universal_newlines_check :
  list_python_modules.universal_newlines
    (String CR (String LF (String "a" (String CR (String "b" EmptyString)))))
  = newline +:+ "a" +:+ newline +:+ "b".
Proof. reflexivity. Qed.

(** [sorted] orders by code point: upper case before lower case. *)
Example sorted_check :
  list_python_modules.sorted ["os"; "sys"; "Os"; ""; "os.path"]
  = [""; "Os"; "os"; "os.path"; "sys"].
Proof. vm_compute. reflexivity. Qed.

(** The pattern of the docstring compiles to the expected expression. *)
Example compile_version_pattern :
  Concrete.compile "v(?P<version>(\d+\.)*\d+)"
  = Some (Concrete.Seq (Concrete.Chars (Concrete.Lit "v"))
            (Concrete.Group 1
               (Concrete.Seq
                  (Concrete.Star
                     (Concrete.Group 2
                        (Concrete.Seq
                           (Concrete.Plus (Concrete.Chars Concrete.Digit))
                           (Concrete.Chars (Concrete.Lit ".")))))
                  (Concrete.Plus (Concrete.Chars Concrete.Digit)))),
          [("version", 1)]).
Proof. vm_compute. reflexivity. Qed.

(** [re.search] finds the leftmost match, [^] holds at the start only, a
    group that took no part in the match is [None], a pattern without the
    group raises [IndexError]. *)
Example search_checks :
  version_found "(?P<version>\d+(\.\d+)*)" "fastq 0.8.3 beta"
    = Return (Some "0.8.3")
  /\ Concrete.search (VStr "^kallisto\s+(?P<version>\S+)") "x kallisto 0.43"
     = Return None
  /\ version_found "a|(?P<version>b)" "a" = Return None
  /\ version_found "a" "a" = Raise Concrete.no_such_group
  /\ Concrete.search (VStr "(a") "a" = Raise Concrete.bad_pattern.
Proof. vm_compute. repeat split; reflexivity. Qed.

(** The codecs: [b'A'], [b'\xc3\xa9'] (e acute in utf-8) and the byte
    [0xff], which is no utf-8 and no ascii. *)
Example decode_checks :
  Concrete.decode ["065"%byte] (VStr "ascii") = Return "A"
  /\ Concrete.decode ["195"%byte; "169"%byte] (VStr "utf-8")
     = Return (String (ascii_of_nat 233) EmptyString)
  /\ Concrete.decode ["255"%byte] (VStr "utf-8")
     = Raise Concrete.cannot_decode
  /\ Concrete.decode ["255"%byte] (VStr "ascii")
     = Raise Concrete.cannot_decode
  /\ Concrete.decode ["255"%byte] (VStr "latin-1")
     = Return (String (ascii_of_nat 255) EmptyString)
  /\ Concrete.decode [] (VStr "klingon") = Raise Concrete.unknown_encoding
  /\ Concrete.decode [] VNone = Raise Concrete.encoding_not_str.
Proof. vm_compute. repeat split; reflexivity. Qed.

End fragment_checks.

(* ===================================================================== *)
(** * Further properties *)
(* ===================================================================== *)

(** ** [get_command_version_string] *)

Section more_get_command_version_string.
Import tool_versions.
Context `{L : PyLib}.



(** X2.  A [use_stderr] that is not [None] counts by its truth value:
    [0], [''] and [[]] select standard output like [False]; a non-zero
    number and a non-empty string select standard error like [True]. *)
Theorem get_command_version_string_use_stderr_truth
    s cmd regexp prefix suffix use_stderr encoding raise_on_error :
  get_command_version_string cmd regexp prefix suffix use_stderr encoding
    raise_on_error s
  = get_command_version_string cmd regexp prefix suffix
      (if is_None use_stderr then VNone else VBool (truth use_stderr))
      encoding raise_on_error s.
Proof.
  rewrite !get_command_version_string_unfold.
  destruct (spawn (env s) cmd (isinstance_str cmd)) as [p|ex];
    [|reflexivity].
  f_equal. f_equal.
  destruct use_stderr as [|[]| | | | |? ? []]; simpl; try reflexivity;
    match goal with |- context [truth ?v] => destruct (truth v) end;
    reflexivity.
Qed.


End more_get_command_version_string.

(** ** The module body *)

Section module_more.
Import tool_versions.
Context `{L : PyLib}.

Lemma record_version_run key cmd regexp prefix s :
  record_version key cmd regexp prefix s
  = (Return tt, stored key cmd regexp prefix s).
Proof.
  unfold record_version. unfold mbind at 1, M_bind at 1.
  rewrite get_command_version_string_unfold.
  unfold stored, probed, version_in, setitem, modify, after_launch. simpl.
  destruct (spawn (env s) cmd (isinstance_str cmd)) as [p|ex];
    [|reflexivity].
  destruct (formatted_version _ _ _ _ _); reflexivity.
Qed.

Lemma record_version_then {A} key cmd regexp prefix (c : M state A) s :
  (record_version key cmd regexp prefix;; c) s
  = c (stored key cmd regexp prefix s).
Proof.
  unfold mbind at 1, M_bind at 1. rewrite record_version_run. reflexivity.
Qed.

Lemma gets_then {A B} (f : state -> A) (c : A -> M state B) s :
  (gets f ≫= c) s = c (f s) s.
Proof. reflexivity. Qed.

(** Probes run one after the other: the launches are appended and the
    entries written in order. *)
Lemma stored_rows rows s :
  foldl (fun s row => match row with (key, cmd, regexp, prefix) =>
                        stored key cmd regexp prefix s end) s rows
  = mkState (env s)
      (launched s
       ++ map (fun row => match row with (_, cmd, _, _) =>
                            (cmd, isinstance_str cmd) end) rows)
      (bound s) (ascp_path s)
      (foldl (fun t row => match row with (key, cmd, regexp, prefix) =>
                             <[key := probed (env s) cmd regexp prefix]> t end)
             (SOFTWARE_VERSIONS s) rows).
Proof.
  revert s. induction rows as [|[[[key cmd] regexp] prefix] rows IH]; intros s.
  - cbn [foldl map]. rewrite app_nil_r. now destruct s.
  - cbn [foldl map]. rewrite IH. unfold stored.
    cbn [env launched bound ascp_path SOFTWARE_VERSIONS].
    now rewrite <- app_assoc.
Qed.

(** The module body is the fourteen probes, which never fail, followed by
    the two R blocks. *)
Lemma module_body_tools s : module_body s = r_blocks (tools_state s).
Proof.
  assert (H : foldl (fun s row => match row with (key, cmd, regexp, prefix) =>
                        stored key cmd regexp prefix s end)
                (mkState (env s) (launched s) (bound s) (find_ascp (env s)) ∅)
                (tool_rows (find_ascp (env s)))
              = tools_state s)
    by (rewrite stored_rows; reflexivity).
  rewrite <- H. unfold tool_rows. cbn [foldl].
  unfold module_body. rewrite !modify_then, gets_then.
  rewrite !record_version_then.
  cbn [env launched bound ascp_path SOFTWARE_VERSIONS].
  unfold r_blocks, r_block.
  match goal with |- _ ?st = _ => generalize st end.
  reflexivity.
Qed.


(** A stored value is [None] or starts with the prefix. *)
Lemma probed_shape e cmd regexp prefix :
  probed e cmd regexp prefix = VNone
  \/ exists version, probed e cmd regexp prefix = VStr (prefix +:+ version).
Proof.
  unfold probed, formatted_version.
  destruct (spawn e cmd (isinstance_str cmd)) as [p|ex]; [|auto].
  destruct (bytes_decode _ _) as [text|ex]; simpl; [|auto].
  destruct (re_search _ text) as [[m|]|ex]; simpl; auto.
  destruct (Match_group m "version") as [[v|]|ex]; simpl; auto.
  right. exists (v +:+ ""). now rewrite append_assoc.
Qed.

(** What an R block does, case by case. *)
Lemma r_block_import_fails key expr f s ex :
  import_from (env s) "rpy2.robjects" "r" = Raise ex ->
  "RRuntimeError" ∉ bound s ->
  r_block key expr f s = (Raise RRuntimeError_undefined, s).
Proof.
  intros Hi Hb.
  unfold r_block, try_except_RRuntimeError, import_name.
  unfold mbind, M_bind. rewrite Hi.
  now rewrite bool_decide_eq_false_2.
Qed.

Lemma r_block_returns key expr f s v :
  rpy2_imports (env s) ->
  r_eval (env s) expr = Return v ->
  r_block key expr f s
  = (Return tt,
     mkState (env s) (launched s) (imported s) (ascp_path s)
             (<[key := f v]> (SOFTWARE_VERSIONS s))).
Proof.
  intros [H1 H2] Hr.
  unfold r_block, try_except_RRuntimeError, import_name, r, setitem, modify.
  unfold mbind, M_bind. rewrite H1. simpl. rewrite H2. simpl.
  rewrite Hr. reflexivity.
Qed.

Lemma r_block_handles key expr f s ex :
  rpy2_imports (env s) ->
  r_eval (env s) expr = Raise ex ->
  isinstance ex RRuntimeError = true ->
  r_block key expr f s
  = (Return tt,
     mkState (env s) (launched s) (imported s) (ascp_path s)
             (<[key := VNone]> (SOFTWARE_VERSIONS s))).
Proof.
  intros [H1 H2] Hr Hex.
  unfold r_block, try_except_RRuntimeError, import_name, r, setitem, modify.
  unfold mbind, M_bind. rewrite H1. simpl. rewrite H2. simpl.
  rewrite Hr. simpl.
  rewrite bool_decide_eq_true_2 by apply bound_after_imports.
  rewrite Hex. reflexivity.
Qed.

Lemma r_block_propagates key expr f s ex :
  rpy2_imports (env s) ->
  r_eval (env s) expr = Raise ex ->
  isinstance ex RRuntimeError = false ->
  r_block key expr f s
  = (Raise ex,
     mkState (env s) (launched s) (imported s) (ascp_path s)
             (SOFTWARE_VERSIONS s)).
Proof.
  intros [H1 H2] Hr Hex.
  unfold r_block, try_except_RRuntimeError, import_name, r, setitem, modify.
  unfold mbind, M_bind. rewrite H1. simpl. rewrite H2. simpl.
  rewrite Hr. simpl.
  rewrite bool_decide_eq_true_2 by apply bound_after_imports.
  rewrite Hex. reflexivity.
Qed.

(** An R block launches nothing and writes at its own key only. *)
Lemma r_block_frame key expr f s :
  launched (snd (r_block key expr f s)) = launched s
  /\ forall k, k <> key ->
       SOFTWARE_VERSIONS (snd (r_block key expr f s)) !! k
       = SOFTWARE_VERSIONS s !! k.
Proof.
  unfold r_block, try_except_RRuntimeError, import_name, r, setitem, modify.
  unfold mbind, M_bind.
  destruct (import_from (env s) "rpy2.robjects" "r") as [[]|ex]; simpl.
  - destruct (import_from (env s) "rpy2.rinterface" "RRuntimeError")
      as [[]|ex]; simpl.
    + destruct (r_eval (env s) expr) as [v|ex]; simpl.
      * split; [reflexivity|]. intros k Hk. now rewrite lookup_insert_ne.
      * destruct (bool_decide _);
          [destruct (isinstance ex RRuntimeError)|]; simpl;
          (split; [reflexivity|]); intros k Hk;
          rewrite ?lookup_insert_ne by auto; reflexivity.
    + destruct (bool_decide _);
        [destruct (isinstance ex RRuntimeError)|]; simpl;
        (split; [reflexivity|]); intros k Hk;
        rewrite ?lookup_insert_ne by auto; reflexivity.
  - destruct (bool_decide _);
      [destruct (isinstance ex RRuntimeError)|]; simpl;
      (split; [reflexivity|]); intros k Hk;
      rewrite ?lookup_insert_ne by auto; reflexivity.
Qed.

Lemma r_blocks_frame s :
  launched (snd (r_blocks s)) = launched s
  /\ forall k, k <> "R" -> k <> "BIOC" ->
       SOFTWARE_VERSIONS (snd (r_blocks s)) !! k = SOFTWARE_VERSIONS s !! k.
Proof.
  unfold r_blocks. unfold mbind, M_bind.
  destruct (r_block_frame "R" "R.version$version.string"
              (fun v => VStr (join "" v)) s) as [Hl Ht].
  destruct (r_block "R" _ _ s) as [[[]|ex] s1]; simpl in *.
  - match goal with |- context [r_block "BIOC" ?e ?f s1] =>
      destruct (r_block_frame "BIOC" e f s1) as [Hl' Ht'] end.
    split; [congruence|]. intros k H1 H2. rewrite Ht' by auto. auto.
  - split; [assumption|]. intros k H1 _. auto.
Qed.

(** X4.  Importing the module launches the fourteen commands in the order
    of the file, whatever they answer and however the R part ends: [ascp]
    by its path, directly; the others by name, through a shell. *)
Theorem module_body_launches_all s :
  launched (snd (module_body s))
  = launched s
    ++ [ (VList [VStr (find_ascp (env s)); VStr "--version"], false);
         (VStr "bedtools --version", true); (VStr "bowtie2 --version", true);
         (VStr "cufflinks --help", true); (VStr "epic --version", true);
         (VStr "fastq-sort --version", true); (VStr "hisat2 --version", true);
         (VStr "idr --version", true); (VStr "kallisto", true);
         (VStr "macs2 --version", true); (VStr "salmon --version", true);
         (VStr "samtools", true); (VStr "fastq-dump --version", true);
         (VStr "STAR --version", true) ].
Proof.
  rewrite module_body_tools.
  destruct (r_blocks_frame (tools_state s)) as [-> _].
  unfold tools_state. cbn [launched]. reflexivity.
Qed.

Ltac lookup_row :=
  repeat (rewrite lookup_insert_ne by discriminate);
  rewrite lookup_insert_eq.

(** X5.  After the import, however the R part ends, the table has an entry
    for each of the fourteen tools, and the entry is [None] or a string
    that starts with the prefix of the tool. *)
Theorem module_body_tool_entries s :
  Forall (fun row =>
            match row with
            | (key, _, _, prefix) =>
                SOFTWARE_VERSIONS (snd (module_body s)) !! key = Some VNone
                \/ exists version,
                     SOFTWARE_VERSIONS (snd (module_body s)) !! key
                     = Some (VStr (prefix +:+ version))
            end)
         (tool_rows (find_ascp (env s))).
Proof.
  rewrite module_body_tools.
  destruct (r_blocks_frame (tools_state s)) as [_ Ht].
  unfold tool_rows at 1.
  repeat first [apply Forall_nil_2 | apply Forall_cons_2];
    rewrite Ht by discriminate; unfold tools_state, tool_rows;
    cbn [SOFTWARE_VERSIONS foldl]; lookup_row;
    match goal with
    | |- Some (probed ?e ?c ?r ?p) = _ \/ _ =>
        destruct (probed_shape e c r p) as [->|[v ->]]; eauto
    end.
Qed.


Lemma r_block_second_import_fails key expr f s ex :
  import_from (env s) "rpy2.robjects" "r" = Return tt ->
  import_from (env s) "rpy2.rinterface" "RRuntimeError" = Raise ex ->
  "RRuntimeError" ∉ bound s ->
  r_block key expr f s
  = (Raise RRuntimeError_undefined,
     mkState (env s) (launched s) ({["r"]} ∪ bound s) (ascp_path s)
             (SOFTWARE_VERSIONS s)).
Proof.
  intros H1 H2 Hb.
  unfold r_block, try_except_RRuntimeError, import_name.
  unfold mbind, M_bind. rewrite H1. simpl. rewrite H2. simpl.
  rewrite bool_decide_eq_false_2; [reflexivity|].
  rewrite elem_of_union. intros [Hr|Hr]; [exact (not_r Hr)|exact (Hb Hr)].
Qed.

Ltac no_row :=
  unfold tools_state, tool_rows; cbn [SOFTWARE_VERSIONS foldl];
  repeat (rewrite lookup_insert_ne by discriminate);
  apply lookup_empty.

(** X7.  In an interpreter where the name [RRuntimeError] is not bound
    yet, the import of the module ends well only if both imports from
    [rpy2] succeed: when one of them fails, looking up [RRuntimeError] for
    the except clause raises [NameError], and the table is left without
    the keys [R] and [BIOC]. *)
Theorem module_body_needs_rpy2 s :
  "RRuntimeError" ∉ bound s ->
  rpy2_imports (env s)
  \/ (fst (module_body s) = Raise RRuntimeError_undefined
      /\ SOFTWARE_VERSIONS (snd (module_body s)) !! "R" = None
      /\ SOFTWARE_VERSIONS (snd (module_body s)) !! "BIOC" = None).
Proof.
  intros Hb. unfold rpy2_imports.
  destruct (import_from (env s) "rpy2.robjects" "r") as [[]|ex] eqn:H1;
    [destruct (import_from (env s) "rpy2.rinterface" "RRuntimeError")
       as [[]|ex] eqn:H2|]; [left; auto| |];
    right; rewrite module_body_tools; unfold r_blocks;
    unfold mbind, M_bind.
  - rewrite (r_block_second_import_fails _ _ _ (tools_state s) ex H1 H2 Hb).
    cbn [fst snd SOFTWARE_VERSIONS]. repeat split; no_row.
  - rewrite (r_block_import_fails _ _ _ (tools_state s) ex H1 Hb).
    cbn [fst snd SOFTWARE_VERSIONS]. repeat split; no_row.
Qed.

(** X8.  An exception of [r(...)] that is no [RRuntimeError] is not
    handled: it ends the import of the module, and the table is left
    without the keys [R] and [BIOC]. *)
Theorem module_body_r_failure_propagates s ex :
  rpy2_imports (env s) ->
  r_eval (env s) "R.version$version.string" = Raise ex ->
  isinstance ex RRuntimeError = false ->
  fst (module_body s) = Raise ex
  /\ SOFTWARE_VERSIONS (snd (module_body s)) !! "R" = None
  /\ SOFTWARE_VERSIONS (snd (module_body s)) !! "BIOC" = None.
Proof.
  intros Hi Hr Hex. rewrite module_body_tools. unfold r_blocks.
  unfold mbind, M_bind.
  rewrite (r_block_propagates _ _ _ (tools_state s) ex Hi Hr Hex).
  cbn [fst snd SOFTWARE_VERSIONS]. repeat split; no_row.
Qed.

Lemma r_block_stores key expr f s :
  rpy2_imports (env s) ->
  (forall ex, r_eval (env s) expr = Raise ex ->
              isinstance ex RRuntimeError = true) ->
  r_block key expr f s
  = (Return tt,
     mkState (env s) (launched s) (imported s) (ascp_path s)
             (<[key := r_entry (r_eval (env s) expr) f]>
                (SOFTWARE_VERSIONS s))).
Proof.
  intros Hi Hex. destruct (r_eval (env s) expr) as [v|ex] eqn:Hr.
  - now apply r_block_returns.
  - apply (r_block_handles _ _ _ _ ex); auto.
Qed.

(** X6.  With [rpy2] and an R that fails with [RRuntimeError] only, the
    import of the module ends well: [R] holds the elements of the version
    string joined, [BIOC] holds [Bioconductor ] followed by the elements
    of the Bioconductor version joined, and each is [None] instead when
    its expression fails in R. *)
Theorem module_body_r_entries s :
  rpy2_imports (env s) ->
  (forall expr ex, r_eval (env s) expr = Raise ex ->
                   isinstance ex RRuntimeError = true) ->
  fst (module_body s) = Return tt
  /\ SOFTWARE_VERSIONS (snd (module_body s)) !! "R"
     = Some (r_entry (r_eval (env s) "R.version$version.string")
               (fun v => VStr (join "" v)))
  /\ SOFTWARE_VERSIONS (snd (module_body s)) !! "BIOC"
     = Some (r_entry
               (r_eval (env s) "as.character(BiocInstaller::biocVersion())")
               (fun v => VStr ("Bioconductor " +:+ join "" v))).
Proof.
  intros Hi Hex. rewrite module_body_tools. unfold r_blocks.
  unfold mbind, M_bind.
  rewrite (r_block_stores _ _ _ (tools_state s) Hi (Hex _)).
  rewrite r_block_stores; [|exact Hi|exact (Hex _)].
  unfold tools_state. cbn [fst snd SOFTWARE_VERSIONS env].
  split; [reflexivity|split].
  - rewrite lookup_insert_ne by discriminate. apply lookup_insert_eq.
  - apply lookup_insert_eq.
Qed.

End module_more.

(** ** [R_package_version] *)

Section more_R_package_version.
Import tool_versions.

(** X9.  [R_package_version] changes nothing and never raises.  It
    returns the name and the version, separated by a space, when both
    imports succeed and the registry has a version under the name, and
    [None] in every other case. *)
Theorem R_package_version_result s pkgname :
  snd (R_package_version pkgname s) = s
  /\ ((exists vec version,
         rpy2_imports (env s)
         /\ installed_packages (env s) = Return vec
         /\ rx vec pkgname = RString version
         /\ fst (R_package_version pkgname s)
            = Return (VStr (pkgname +:+ " " +:+ version)))
      \/ ((rpy2_imports (env s) ->
           forall vec, installed_packages (env s) = Return vec ->
                       rx vec pkgname = NA_character)
          /\ fst (R_package_version pkgname s) = Return VNone)).
Proof.
  rewrite R_package_version_unfold. simpl. split; [reflexivity|].
  unfold rpy2_imports.
  destruct (import_from (env s) "rpy2.robjects" "r") as [[]|ex]; simpl;
    [|right; split; [intros [? _]; discriminate | reflexivity]].
  destruct (import_from (env s) "rpy2.rinterface" "RRuntimeError")
    as [[]|ex]; simpl;
    [|right; split; [intros [_ ?]; discriminate | reflexivity]].
  destruct (installed_packages (env s)) as [vec|ex]; simpl;
    [|right; split; [intros _ ? ?; discriminate | reflexivity]].
  destruct (rx vec pkgname) as [|version] eqn:Hrx; simpl.
  - right. split; [|reflexivity]. intros _ vec' [= <-]. exact Hrx.
  - left. exists vec, version. auto.
Qed.

End more_R_package_version.

(** ** The module lister *)

Section lister_more.
Import list_python_modules.
Context `{L : PyLib}.

(** X11.  When every Python file can be read, every workflow file
    compiles and the temporary file takes the compiled texts (the
    encoding of the locale holds their characters), the combined text is
    the texts of the Python files in the order of the listing, each
    followed by a line end, then the compiled workflow files likewise,
    with the line ends CR LF and CR read back as LF; the workflow
    compiler has run once per workflow file, in order, and nothing is
    printed. *)
Theorem gather_combines
    s python_files texts snakefiles compiled :
  Forall2 (reads s) python_files texts ->
  Forall2 (compiles s) snakefiles compiled ->
  Forall (writable s) compiled ->
  gather python_files snakefiles s
  = (Return (universal_newlines (lines texts +:+ lines compiled)),
     mkState (env s) (launched s ++ map snakemake_argv snakefiles)
             (lines texts +:+ lines compiled) (printed s)).
Proof. apply gather_collects. Qed.

(** The loop of lines 19-22 stops at the first compiled text that the
    temporary file does not take. *)
Lemma for_in_write_fails snakefiles texts sf text rest s :
  Forall2 (compiles s) snakefiles texts ->
  Forall (writable s) texts ->
  compiles s sf text ->
  encodes (file_codec (env s)) text = false ->
  for_in (snakefiles ++ sf :: rest) (fun sf =>
    out ← Popen_read
            ["snakemake"; "--print-compilation"; "--snakefile"; sf];
    text ← lift (bytes_decode out (VStr getdefaultencoding));
    write text;; write newline) s
  = (Raise cannot_encode,
     mkState (env s)
             (launched s ++ map snakemake_argv (snakefiles ++ [sf]))
             (tempf s +:+ lines texts) (printed s)).
Proof.
  intros H. revert texts s H.
  induction snakefiles as [|sf' sfs IH]; intros texts s H Hw Hc Hno;
    inversion H as [|? t ? ts Hc' Hrest]; subst;
    cbn [for_in lines map app].
  - destruct Hc as (out & Hp & Hd). unfold snakemake_argv in Hp.
    unfold mbind at 1, M_bind at 1.
    unfold mbind at 1, M_bind at 1. unfold Popen_read at 1.
    rewrite Hp.
    unfold mbind at 1, M_bind at 1. unfold lift at 1. rewrite Hd.
    unfold mbind at 1, M_bind at 1.
    rewrite write_refused by exact Hno.
    cbn [env launched tempf printed]. now rewrite append_nil_r.
  - destruct Hc' as (out & Hp & Hd). unfold snakemake_argv in Hp.
    apply Forall_cons in Hw as [Hwt Hws].
    unfold mbind at 1, M_bind at 1.
    unfold mbind at 1, M_bind at 1. unfold Popen_read at 1.
    rewrite Hp.
    unfold mbind at 1, M_bind at 1. unfold lift at 1. rewrite Hd.
    rewrite write_line by exact Hwt.
    rewrite (IH ts) by assumption.
    cbn [env launched tempf printed].
    now rewrite !append_assoc, <- app_assoc.
Qed.

(** X16.  A compiled workflow text with a character that the encoding of
    the locale does not hold ends the collection with
    [UnicodeEncodeError] when it is written to the temporary file: the
    workflow compiler has run for this file and for those before it and
    for no file after it, nothing of the text is written, and nothing is
    printed. *)
Theorem gather_stops_at_unencodable_text
    s python_files texts snakefiles compiled sf text rest :
  Forall2 (reads s) python_files texts ->
  Forall2 (compiles s) snakefiles compiled ->
  Forall (writable s) compiled ->
  compiles s sf text ->
  encodes (file_codec (env s)) text = false ->
  gather python_files (snakefiles ++ sf :: rest) s
  = (Raise cannot_encode,
     mkState (env s)
             (launched s ++ map snakemake_argv (snakefiles ++ [sf]))
             (lines texts +:+ lines compiled) (printed s)).
Proof.
  intros Hr Hc Hw Hsf Hno. unfold gather. unfold mbind at 1, M_bind at 1.
  unfold modify at 1.
  unfold mbind at 1, M_bind at 1.
  rewrite (for_in_reads python_files texts) by exact Hr.
  unfold mbind at 1, M_bind at 1.
  rewrite (for_in_write_fails snakefiles compiled sf text rest)
    by assumption.
  reflexivity.
Qed.

(** The loop of lines 16-18 stops at the first file that cannot be
    read. *)
Lemma for_in_read_fails python_files texts pf rest ex s :
  Forall2 (reads s) python_files texts ->
  read_text (env s) pf = Raise ex ->
  for_in (python_files ++ pf :: rest) (fun pf =>
    text ← open_read pf; write text;; write newline) s
  = (Raise ex,
     mkState (env s) (launched s) (tempf s +:+ lines texts) (printed s)).
Proof.
  intros H Hf. revert texts s H Hf.
  induction python_files as [|p ps IH]; intros texts s H Hf;
    inversion H as [|? t ? ts Hr Hrest]; subst; cbn [for_in lines app].
  - unfold mbind at 1, M_bind at 1.
    unfold mbind at 1, M_bind at 1. unfold open_read at 1.
    rewrite Hf. rewrite append_nil_r. now destruct s.
  - unfold mbind at 1, M_bind at 1.
    unfold mbind at 1, M_bind at 1. unfold open_read at 1.
    pose proof (reads_writable s p t Hr) as Hw.
    unfold reads in Hr. rewrite Hr.
    rewrite (write_line t s Hw).
    rewrite (IH ts) by assumption.
    cbn [env launched tempf printed]. now rewrite !append_assoc.
Qed.

(** X12.  A Python file that cannot be read ends the collection with the
    exception of [open]: the files listed after it are not read and the
    workflow compiler is not run at all. *)
Theorem gather_stops_at_unreadable_file
    s python_files texts pf rest snakefiles ex :
  Forall2 (reads s) python_files texts ->
  read_text (env s) pf = Raise ex ->
  gather (python_files ++ pf :: rest) snakefiles s
  = (Raise ex,
     mkState (env s) (launched s) (lines texts) (printed s)).
Proof.
  intros Hr Hf. unfold gather. unfold mbind at 1, M_bind at 1.
  unfold modify at 1.
  unfold mbind at 1, M_bind at 1.
  rewrite (for_in_read_fails python_files texts pf rest ex)
    by assumption.
  reflexivity.
Qed.

Lemma quiet_list_files cmd : quiet (list_files cmd).
Proof. intros s. now rewrite list_files_state. Qed.

Lemma quiet_then_prints {A} (c : M state A) (f : A -> M state unit) :
  quiet c -> (forall a, prints_report_or_nothing (f a)) ->
  prints_report_or_nothing (c ≫= f).
Proof.
  intros Hc Hf s. unfold mbind, M_bind.
  destruct (Hc s) as [_ Hp]. destruct (c s) as [[a|ex] t]; simpl in *.
  - rewrite <- Hp. apply Hf.
  - right. eauto.
Qed.

(** X10.  The script prints once, at its end: a run that returns has
    printed one report, and a run that raises -- a listing, a read, a
    compilation, a write, the disassembly or the printing itself failed
    -- has printed nothing. *)
Theorem main_prints_report_or_nothing : prints_report_or_nothing main.
Proof.
  unfold main.
  apply quiet_then_prints; [apply quiet_list_files|intros python_files].
  apply quiet_then_prints; [apply quiet_list_files|intros snakefiles].
  apply quiet_then_prints; [apply quiet_gather|intros fulltext].
  apply quiet_then_prints; [intros s; split; reflexivity|intros instrs].
  intros s. unfold print. destruct (encodes _ _).
  - left. exists instrs. split; reflexivity.
  - right. exists cannot_encode. split; reflexivity.
Qed.

Lemma join_cons sep c w ws :
  join sep (String c w :: ws) = String c (join sep (w :: ws)).
Proof. destruct ws; reflexivity. Qed.

(** Joining what [split] returns gives the text back. *)
Lemma join_split sep s : join (String sep EmptyString) (split sep s) = s.
Proof.
  induction s as [|c s IH]; [reflexivity|]. simpl.
  destruct (Ascii.eqb_spec c sep) as [->|Hne].
  - destruct (split_cons sep s) as (w & ws & Hs). rewrite Hs in *.
    change (join (String sep "") ("" :: w :: ws))
      with (String sep (join (String sep "") (w :: ws))).
    now rewrite IH.
  - destruct (split_cons sep s) as (w & ws & Hs). rewrite Hs in *.
    now rewrite join_cons, IH.
Qed.

(** No field of [split] holds the separator. *)
Lemma split_no_sep sep s :
  Forall (fun w => sep ∉ String.list_ascii_of_string w) (split sep s).
Proof.
  induction s as [|c s IH]; simpl.
  - repeat constructor. apply not_elem_of_nil.
  - destruct (Ascii.eqb_spec c sep) as [->|Hne].
    + constructor; [apply not_elem_of_nil | exact IH].
    + destruct (split sep s) as [|w ws]; inversion IH; subst;
        constructor; simpl; try assumption;
        rewrite not_elem_of_cons; split; auto using not_elem_of_nil.
Qed.

(** X13.  A listing that succeeds gives at least one name; no name holds
    a line end; and the names, joined by line ends, are the output of the
    command, decoded and stripped. *)
Theorem list_files_names cmd s files :
  fst (list_files cmd s) = Return files ->
  (exists out text,
     check_output (env s) cmd = Return out
     /\ bytes_decode out (VStr getdefaultencoding) = Return text
     /\ join newline files = strip text)
  /\ (exists f fs, files = f :: fs)
  /\ Forall (fun f => LF ∉ String.list_ascii_of_string f) files.
Proof.
  unfold list_files, shell_output, lift. unfold mbind, M_bind, mret, M_ret.
  destruct (check_output (env s) cmd) as [out|] eqn:Ho; simpl;
    [|discriminate].
  destruct (bytes_decode _ _) as [text|] eqn:Hd; simpl; [|discriminate].
  intros [= <-]. split; [|split].
  - exists out, text. repeat split; [exact Hd | apply join_split].
  - apply split_cons.
  - apply split_no_sep.
Qed.

(** Two lists of instructions import the same names. *)
Lemma same_imports l1 l2 :
  imports l1 = imports l2
  <-> forall name,
        (exists x, x ∈ l1 /\ opname x = "IMPORT_NAME" /\ argval x = name)
        <-> (exists x, x ∈ l2 /\ opname x = "IMPORT_NAME" /\ argval x = name).
Proof.
  assert (Hin : forall l name,
            name ∈ imports l
            <-> exists x, x ∈ l /\ opname x = "IMPORT_NAME" /\ argval x = name).
  { intros l name. unfold imports.
    rewrite elem_of_list_to_set, list_elem_of_fmap. split.
    - intros (x & -> & Hx). apply list_elem_of_filter in Hx as [Hop Hx].
      eauto.
    - intros (x & Hx & Hop & <-). exists x. split; [reflexivity|].
      apply list_elem_of_filter. auto. }
  split.
  - intros Heq name. now rewrite <- !Hin, Heq.
  - intros H. apply set_eq. intros name. rewrite !Hin. apply H.
Qed.

(** X14.  The report depends on the set of imported names only: two
    lists of instructions whose [IMPORT_NAME] instructions carry the same
    names give the same report, whatever the order of the instructions
    and however often a name is imported. *)
Theorem report_of_same_names l1 l2 :
  (forall name,
     (exists x, x ∈ l1 /\ opname x = "IMPORT_NAME" /\ argval x = name)
     <-> (exists x, x ∈ l2 /\ opname x = "IMPORT_NAME" /\ argval x = name)) ->
  report l1 = report l2.
Proof.
  intros H. unfold report. now rewrite (proj2 (same_imports l1 l2) H).
Qed.

Lemma imports_none instructions :
  Forall (fun x => opname x <> "IMPORT_NAME") instructions ->
  imports instructions = ∅.
Proof.
  unfold imports. induction 1 as [|x l Hx _ IH]; [reflexivity|].
  rewrite filter_cons_False by exact Hx. exact IH.
Qed.

(** X15.  A corpus without a top-level import gives one empty line: the
    script prints a line end and nothing else. *)
Theorem main_without_imports
    s python_files snakefiles fulltext instructions :
  fst (list_files find_python_files s) = Return python_files ->
  fst (list_files find_snakefiles s) = Return snakefiles ->
  fst (gather python_files snakefiles s) = Return fulltext ->
  get_instructions (env s) fulltext = Return instructions ->
  Forall (fun x => opname x <> "IMPORT_NAME") instructions ->
  fst (main s) = Return tt
  /\ printed (snd (main s)) = printed s +:+ newline.
Proof.
  intros Hpy Hsn Hga Hdis Hno.
  assert (Hrep : report instructions = "")
    by (unfold report; now rewrite (imports_none _ Hno)).
  destruct (main_reports s python_files snakefiles fulltext instructions
              Hpy Hsn Hga Hdis) as [Hret Hout].
  - unfold printable. now rewrite Hrep.
  - rewrite Hrep in Hout. auto.
Qed.

End lister_more.

(** ** Runs on the sample machines and directories *)

Section further_runs.
Import tool_versions Samples.

#[local] Existing Instance Concrete.lib.



(** X6 on a run: R answers its version, and has no [BiocInstaller]. *)
Lemma module_body_r_entries_witness :
  rpy2_imports (pipeline_machine true)
  /\ fst (module_body (initial (pipeline_machine true)))
     = Return tt
  /\ SOFTWARE_VERSIONS
       (snd (module_body
               (initial (pipeline_machine true)))) !! "R"
     = Some (VStr "R version 3.4.0 (2017-04-21)")
  /\ SOFTWARE_VERSIONS
       (snd (module_body
               (initial (pipeline_machine true)))) !! "BIOC"
     = Some VNone.
Proof.
  assert (Hi : rpy2_imports (pipeline_machine true))
    by (split; reflexivity).
  split; [exact Hi|].
  apply (module_body_r_entries (L := Concrete.lib)
           (initial (pipeline_machine true)) Hi).
  intros expr ex. simpl.
  destruct (String.eqb expr "R.version$version.string");
    [discriminate | intros [= <-]; reflexivity].
Defined.

(** X7 on a run: [rpy2] is not installed. *)
Lemma module_body_needs_rpy2_witness :
  ("RRuntimeError" ∉ bound (initial (pipeline_machine false)))
  /\ fst (module_body (initial (pipeline_machine false)))
     = Raise RRuntimeError_undefined
  /\ SOFTWARE_VERSIONS
       (snd (module_body
               (initial (pipeline_machine false)))) !! "R" = None
  /\ SOFTWARE_VERSIONS
       (snd (module_body
               (initial (pipeline_machine false)))) !! "BIOC" = None.
Proof.
  assert (Hb : "RRuntimeError" ∉ bound (initial (pipeline_machine false)))
    by apply not_elem_of_empty.
  split; [exact Hb|].
  destruct (module_body_needs_rpy2 (L := Concrete.lib)
              (initial (pipeline_machine false)) Hb) as [[Hi _]|Hr];
    [discriminate Hi | exact Hr].
Defined.

(** X8 on a run: R cannot be started, which is no [RRuntimeError]. *)
Lemma module_body_r_failure_propagates_witness :
  rpy2_imports stubborn_r_machine
  /\ isinstance (mkException OSError "cannot start R") RRuntimeError = false
  /\ fst (module_body (initial stubborn_r_machine))
     = Raise (mkException OSError "cannot start R")
  /\ SOFTWARE_VERSIONS
       (snd (module_body (initial stubborn_r_machine)))
       !! "R" = None
  /\ SOFTWARE_VERSIONS
       (snd (module_body (initial stubborn_r_machine)))
       !! "BIOC" = None.
Proof.
  assert (Hi : rpy2_imports stubborn_r_machine) by (split; reflexivity).
  split; [exact Hi|]. split; [reflexivity|].
  apply (module_body_r_failure_propagates (L := Concrete.lib)
           (initial stubborn_r_machine)
           (mkException OSError "cannot start R") Hi);
    reflexivity.
Defined.

End further_runs.

Section further_lister_runs.
Import list_python_modules ListerSamples.

#[local] Existing Instance Concrete.lib.

(** X11 on a run: two Python files and two workflow files. *)
Lemma gather_combines_witness :
  Forall2 (reads two_of_each) ["./a.py"; "./lib/b.py"]
    [line "import os" +:+ line "import sys"; line "import re"]
  /\ Forall2 (compiles two_of_each) ["./Snakefile"; "./sub/Snakefile"]
       [line "import os"; line "import json"]
  /\ Forall (writable two_of_each) [line "import os"; line "import json"]
  /\ gather ["./a.py"; "./lib/b.py"] ["./Snakefile"; "./sub/Snakefile"]
       two_of_each
     = (Return project_text,
        mkState (env two_of_each)
          [snakemake_argv "./Snakefile"; snakemake_argv "./sub/Snakefile"]
          project_text "").
Proof.
  assert (Hr : Forall2 (reads two_of_each) ["./a.py"; "./lib/b.py"]
                 [line "import os" +:+ line "import sys"; line "import re"])
    by (repeat constructor).
  assert (Hc : Forall2 (compiles two_of_each)
                 ["./Snakefile"; "./sub/Snakefile"]
                 [line "import os"; line "import json"])
    by (repeat constructor;
        [exists (Samples.bytes (line "import os"))
        |exists (Samples.bytes (line "import json"))];
        split; reflexivity).
  assert (Hw : Forall (writable two_of_each)
                 [line "import os"; line "import json"])
    by (repeat constructor).
  split; [exact Hr|]. split; [exact Hc|]. split; [exact Hw|].
  exact (gather_combines (L := Concrete.lib) two_of_each _ _ _ _ Hr Hc Hw).
Defined.

(** X16 on a run: under the C locale the compiled workflow file has an
    e acute in a comment. *)
Lemma gather_stops_at_unencodable_text_witness :
  Forall2 (reads under_c_locale) ["./a.py"] [line "import os"]
  /\ compiles under_c_locale "./Snakefile"
       ("# caf" +:+ e_acute +:+ newline +:+ line "import sys")
  /\ encodes (file_codec (env under_c_locale))
       ("# caf" +:+ e_acute +:+ newline +:+ line "import sys") = false
  /\ gather ["./a.py"] ([] ++ "./Snakefile" :: ["./sub/Snakefile"])
       under_c_locale
     = (Raise cannot_encode,
        mkState (env under_c_locale) [snakemake_argv "./Snakefile"]
          (line "import os" +:+ newline) "").
Proof.
  assert (Hr : Forall2 (reads under_c_locale) ["./a.py"]
                 [line "import os"])
    by (repeat constructor).
  assert (Hc : compiles under_c_locale "./Snakefile"
                 ("# caf" +:+ e_acute +:+ newline +:+ line "import sys"))
    by (eexists; split; reflexivity).
  split; [exact Hr|]. split; [exact Hc|]. split; [reflexivity|].
  exact (gather_stops_at_unencodable_text (L := Concrete.lib) under_c_locale
           _ _ [] [] "./Snakefile" _ ["./sub/Snakefile"]
           Hr ltac:(constructor) ltac:(constructor) Hc eq_refl).
Defined.

(** The same run of the whole script: it stops on the write and prints
    nothing. *)
Example main_under_c_locale :
  main under_c_locale
  = (Raise cannot_encode,
     mkState (env under_c_locale) [snakemake_argv "./Snakefile"]
       (line "import os" +:+ newline) "").
Proof. vm_compute. reflexivity. Qed.

(** X14 on a run: [os], [sys] and [os] again against [sys] and [os]. *)
Lemma report_of_same_names_witness :
  (forall name,
     (exists x, x ∈ import_statements ["os"; "sys"; "os"]
                /\ opname x = "IMPORT_NAME" /\ argval x = name)
     <-> (exists x, x ∈ import_statements ["sys"; "os"]
                    /\ opname x = "IMPORT_NAME" /\ argval x = name))
  /\ report (import_statements ["os"; "sys"; "os"])
     = report (import_statements ["sys"; "os"]).
Proof.
  assert (H : forall name,
     (exists x, x ∈ import_statements ["os"; "sys"; "os"]
                /\ opname x = "IMPORT_NAME" /\ argval x = name)
     <-> (exists x, x ∈ import_statements ["sys"; "os"]
                    /\ opname x = "IMPORT_NAME" /\ argval x = name))
    by (apply same_imports; vm_compute; reflexivity).
  split; [exact H|].
  exact (report_of_same_names _ _ H).
Defined.

(** X12 on a run: the second of three listed files does not exist. *)
Lemma gather_stops_at_unreadable_file_witness :
  Forall2 (reads both_kinds) ["./a.py"]
    [line "import os" +:+ line "import sys"]
  /\ read_text (env both_kinds) "./gone.py" = Raise Samples.file_not_found
  /\ gather (["./a.py"] ++ "./gone.py" :: ["./a.py"]) ["./Snakefile"]
       both_kinds
     = (Raise Samples.file_not_found,
        mkState (env both_kinds) []
          (line "import os" +:+ line "import sys" +:+ newline) "").
Proof.
  assert (Hr : Forall2 (reads both_kinds) ["./a.py"]
                 [line "import os" +:+ line "import sys"])
    by (repeat constructor).
  split; [exact Hr|]. split; [reflexivity|].
  exact (gather_stops_at_unreadable_file (L := Concrete.lib) both_kinds
           _ _ "./gone.py" ["./a.py"] ["./Snakefile"] _ Hr eq_refl).
Defined.

(** X13 on a run: [find] prints one name. *)
Lemma list_files_names_witness :
  fst (list_files find_python_files both_kinds) = Return ["./a.py"]
  /\ (exists out text,
        check_output (env both_kinds) find_python_files = Return out
        /\ bytes_decode out (VStr getdefaultencoding) = Return text
        /\ join newline ["./a.py"] = strip text)
  /\ (exists f fs, ["./a.py"] = f :: fs)
  /\ Forall (fun f => LF ∉ String.list_ascii_of_string f) ["./a.py"].
Proof.
  split; [reflexivity|].
  apply (list_files_names (L := Concrete.lib) find_python_files both_kinds).
  reflexivity.
Defined.

(** X15 on a run: two files that assign variables and import nothing. *)
Lemma main_without_imports_witness :
  Forall (fun x => opname x <> "IMPORT_NAME") no_import
  /\ fst (main without_imports) = Return tt
  /\ printed (snd (main without_imports)) = newline.
Proof.
  assert (Hno : Forall (fun x => opname x <> "IMPORT_NAME") no_import)
    by (repeat constructor; discriminate).
  split; [exact Hno|].
  apply (main_without_imports (L := Concrete.lib) without_imports
           ["./a.py"] ["./Snakefile"]
           (line "x = 1" +:+ newline +:+ line "rules = []" +:+ newline)
           no_import); try reflexivity.
  exact Hno.
Defined.

End further_lister_runs.
